(** * The canvas engine of Procastify (src/components/canvas/CanvasEngine.ts)

    A shallow embedding of the [CanvasEngine] class: its fields, the browser
    and storage collaborators it talks to, its pointer handlers and its
    debounced persistence, followed by the properties the specification
    states about them.

    Numbers are exact rationals ([Qc], canonical fractions, so that two equal
    numbers are the same value); a JavaScript double rounds, and divides by
    zero into an infinity, neither of which is represented: statements that
    divide assume a non-zero divisor. Time is counted in whole milliseconds. *)

From Stdlib Require Import QArith Qcanon Qcabs Qround.
From stdpp Require Import base option list strings gmap pretty.

Local Open Scope Qc_scope.

(* ================================================================== *)
(** ** Data model (./types, as CanvasEngine.ts uses it) *)

Inductive ToolType :=
| selection | grab | eraser | text
| free_draw | rectangle | ellipse | line | arrow | diamond.

Record Point := { pt_x : Qc; pt_y : Qc }.

(** The variant-specific fields, as the drawing branch of [handleMouseDown]
    and [handleTextEntry] write them. *)
Inductive ShapeKind :=
| FreeDraw (points : list Point) (bgFill strokeStyle fillStyle : string)
| Rectangle (width height : Qc) (bgFill rounded strokeStyle : string)
            (roughStyle : Qc) (fillStyle : string)
| Ellipse (radX radY : Qc) (bgFill strokeStyle : string)
          (roughStyle : Qc) (fillStyle : string)
| Line (toX toY : Qc) (strokeStyle : string) (roughStyle : Qc)
| Arrow (toX toY : Qc) (strokeStyle : string) (roughStyle : Qc)
| Diamond (width height : Qc) (bgFill rounded strokeStyle : string)
          (roughStyle : Qc) (fillStyle : string)
| Text (width height : Qc) (content : string)
       (fontSize fontFamily textAlign : string).

(** [{ id, x, y, strokeWidth, strokeFill }] is the [base] every shape
    spreads in. *)
Record Shape := {
  shape_id : string;
  shape_x : Qc;
  shape_y : Qc;
  shape_strokeWidth : Qc;
  shape_strokeFill : string;
  shape_kind : ShapeKind
}.

Record DOMRect := { rect_left : Qc; rect_top : Qc; rect_width : Qc; rect_height : Qc }.

Record MouseEvent := { clientX : Qc; clientY : Qc; buttons : N }.

(** The six arguments of [ctx.setTransform(a, b, c, d, e, f)]. *)
Record Transform := { tr_a : Qc; tr_b : Qc; tr_c : Qc; tr_d : Qc; tr_e : Qc; tr_f : Qc }.

(** The 2D context maps a point [(x, y)] to [(a x + c y + e, b x + d y + f)]. *)
Definition applyTransform (t : Transform) (p : Qc * Qc) : Qc * Qc :=
  (tr_a t * fst p + tr_c t * snd p + tr_e t,
   tr_b t * fst p + tr_d t * snd p + tr_f t).

(* ================================================================== *)
(** ** Collaborators that are not part of CanvasEngine.ts *)

(** [SelectionController] (./SelectionController) is used through these
    methods only. [Sel] is the controller's own state (the selected shape and
    the drag or resize session); a query may read it. The source hands the
    controller a reference to the selected shape, which is an element of the
    engine's array: the two [update] methods, which move or resize that
    shape in place, therefore take and return the array here; the other
    methods leave the array alone. *)
Class SelectionController (Sel Bounds Handle : Type) := {
  sc_new : Sel;
  getSelectedShape : Sel -> option Shape;
  setSelectedShape : option Shape -> Sel -> Sel;
  getShapeBounds : Sel -> Shape -> Bounds;
  getResizeHandleAtPoint : Sel -> Qc -> Qc -> Bounds -> option Handle;
  isPointInShape : Sel -> Qc -> Qc -> Shape -> bool;
  startResizing : Qc -> Qc -> Sel -> Sel;
  startDragging : Qc -> Qc -> Sel -> Sel;
  isDraggingShape : Sel -> bool;
  isResizingShape : Sel -> bool;
  updateDragging : Qc -> Qc -> Sel -> list Shape -> Sel * list Shape;
  updateResizing : Qc -> Qc -> Sel -> list Shape -> Sel * list Shape;
  stopDragging : Sel -> Sel;
  stopResizing : Sel -> Sel
}.

(** [JSON.parse] (which throws on malformed text: [None]), [JSON.stringify]
    and the constant [LOCALSTORAGE_CANVAS_KEY] of ./types. *)
Class Externals := {
  JSON_parse : string -> option (list Shape);
  JSON_stringify : list Shape -> string;
  LOCALSTORAGE_CANVAS_KEY : string
}.

(** What [StorageService.getCanvasElements] settles with: a rejection, or a
    value that may be [null]/[undefined]. *)
Inductive FetchResult :=
| FetchRejected
| FetchResolved (elements : option (list Shape)).

(** The callbacks this file hands to [setTimeout]. *)
Inductive TimerCallback :=
| RunPersist      (* () => this.persistToStorage() *)
| FocusTextarea.  (* () => textarea.focus() *)

Record Timer := { timer_id : positive; timer_due : nat; timer_callback : TimerCallback }.

(** One pass of [render]: the transform set, the shapes drawn in order and
    the selected shape around which the selection box was drawn, if any. *)
Record Frame := {
  frame_transform : Transform;
  frame_shapes : list Shape;
  frame_selectionBox : option Shape
}.

(** The inline editor [handleTextEntry] opens. *)
Record Textarea := {
  ta_left : Qc; ta_top : Qc; ta_color : string; ta_worldX : Qc; ta_worldY : Qc
}.

(** The browser and the storage service, as far as the engine observes or
    changes them. [timers] is in insertion order, which is the order in which
    timers due at the same time fire; timer handles are positive integers.
    [remoteSaves] lists the calls of [StorageService.saveCanvasElements],
    oldest first. *)
Record Host := {
  localStorage : gmap string string;
  clock : nat;
  timers : list Timer;
  nextTimerId : positive;
  remoteSaves : list (string * list Shape);
  console : list string;
  frames : list Frame;
  cursor : string;
  devicePixelRatio : Qc;
  canvasRect : DOMRect;
  textEditorContainer : bool;
  textareas : list Textarea
}.

(* ================================================================== *)
(** ** The engine's fields *)

Set Implicit Arguments.

Record Engine (Sel : Type) := {
  shapes : list Shape;
  selectionController : Sel;
  canvasId : string;
  readOnly : bool;
  activeTool : ToolType;
  isDrawing : bool;
  startX : Qc;
  startY : Qc;
  scale : Qc;
  panX : Qc;
  panY : Qc;
  isPanning : bool;
  lastMouseX : Qc;
  lastMouseY : Qc;
  cachedCanvasRect : option DOMRect;
  strokeWidth : Qc;
  strokeFill : string;
  bgFill : string;
  strokeStyle : string;
  roughStyle : Qc;
  fillStyle : string;
  fontFamily : string;
  fontSize : string;
  saveTimeoutId : option positive
}.

(** An engine in its browser, together with the continuations of its two
    asynchronous methods that still wait for the storage service: the number
    of [saveCanvasElements] calls that have not settled, and whether
    [getCanvasElements] has not. *)
Record World (Sel : Type) := {
  engine : Engine Sel;
  host : Host;
  awaitingSaves : nat;
  awaitingFetch : bool
}.

Unset Implicit Arguments.

(** Field assignments. *)
Section Setters.
Context {Sel : Type}.

Definition set_shapes (v : list Shape) (e : Engine Sel) : Engine Sel :=
  {| shapes := v; selectionController := selectionController e; canvasId :=
     canvasId e; readOnly := readOnly e; activeTool := activeTool e;
     isDrawing := isDrawing e; startX := startX e; startY := startY e; scale
     := scale e; panX := panX e; panY := panY e; isPanning := isPanning e;
     lastMouseX := lastMouseX e; lastMouseY := lastMouseY e; cachedCanvasRect
     := cachedCanvasRect e; strokeWidth := strokeWidth e; strokeFill :=
     strokeFill e; bgFill := bgFill e; strokeStyle := strokeStyle e;
     roughStyle := roughStyle e; fillStyle := fillStyle e; fontFamily :=
     fontFamily e; fontSize := fontSize e; saveTimeoutId := saveTimeoutId e |}.

Definition set_selectionController (v : Sel) (e : Engine Sel) : Engine Sel :=
  {| shapes := shapes e; selectionController := v; canvasId := canvasId e;
     readOnly := readOnly e; activeTool := activeTool e; isDrawing :=
     isDrawing e; startX := startX e; startY := startY e; scale := scale e;
     panX := panX e; panY := panY e; isPanning := isPanning e; lastMouseX :=
     lastMouseX e; lastMouseY := lastMouseY e; cachedCanvasRect :=
     cachedCanvasRect e; strokeWidth := strokeWidth e; strokeFill :=
     strokeFill e; bgFill := bgFill e; strokeStyle := strokeStyle e;
     roughStyle := roughStyle e; fillStyle := fillStyle e; fontFamily :=
     fontFamily e; fontSize := fontSize e; saveTimeoutId := saveTimeoutId e |}.

Definition set_activeTool (v : ToolType) (e : Engine Sel) : Engine Sel :=
  {| shapes := shapes e; selectionController := selectionController e;
     canvasId := canvasId e; readOnly := readOnly e; activeTool := v;
     isDrawing := isDrawing e; startX := startX e; startY := startY e; scale
     := scale e; panX := panX e; panY := panY e; isPanning := isPanning e;
     lastMouseX := lastMouseX e; lastMouseY := lastMouseY e; cachedCanvasRect
     := cachedCanvasRect e; strokeWidth := strokeWidth e; strokeFill :=
     strokeFill e; bgFill := bgFill e; strokeStyle := strokeStyle e;
     roughStyle := roughStyle e; fillStyle := fillStyle e; fontFamily :=
     fontFamily e; fontSize := fontSize e; saveTimeoutId := saveTimeoutId e |}.

Definition set_isDrawing (v : bool) (e : Engine Sel) : Engine Sel :=
  {| shapes := shapes e; selectionController := selectionController e;
     canvasId := canvasId e; readOnly := readOnly e; activeTool := activeTool
     e; isDrawing := v; startX := startX e; startY := startY e; scale :=
     scale e; panX := panX e; panY := panY e; isPanning := isPanning e;
     lastMouseX := lastMouseX e; lastMouseY := lastMouseY e; cachedCanvasRect
     := cachedCanvasRect e; strokeWidth := strokeWidth e; strokeFill :=
     strokeFill e; bgFill := bgFill e; strokeStyle := strokeStyle e;
     roughStyle := roughStyle e; fillStyle := fillStyle e; fontFamily :=
     fontFamily e; fontSize := fontSize e; saveTimeoutId := saveTimeoutId e |}.

Definition set_startX (v : Qc) (e : Engine Sel) : Engine Sel :=
  {| shapes := shapes e; selectionController := selectionController e;
     canvasId := canvasId e; readOnly := readOnly e; activeTool := activeTool
     e; isDrawing := isDrawing e; startX := v; startY := startY e; scale :=
     scale e; panX := panX e; panY := panY e; isPanning := isPanning e;
     lastMouseX := lastMouseX e; lastMouseY := lastMouseY e; cachedCanvasRect
     := cachedCanvasRect e; strokeWidth := strokeWidth e; strokeFill :=
     strokeFill e; bgFill := bgFill e; strokeStyle := strokeStyle e;
     roughStyle := roughStyle e; fillStyle := fillStyle e; fontFamily :=
     fontFamily e; fontSize := fontSize e; saveTimeoutId := saveTimeoutId e |}.

Definition set_startY (v : Qc) (e : Engine Sel) : Engine Sel :=
  {| shapes := shapes e; selectionController := selectionController e;
     canvasId := canvasId e; readOnly := readOnly e; activeTool := activeTool
     e; isDrawing := isDrawing e; startX := startX e; startY := v; scale :=
     scale e; panX := panX e; panY := panY e; isPanning := isPanning e;
     lastMouseX := lastMouseX e; lastMouseY := lastMouseY e; cachedCanvasRect
     := cachedCanvasRect e; strokeWidth := strokeWidth e; strokeFill :=
     strokeFill e; bgFill := bgFill e; strokeStyle := strokeStyle e;
     roughStyle := roughStyle e; fillStyle := fillStyle e; fontFamily :=
     fontFamily e; fontSize := fontSize e; saveTimeoutId := saveTimeoutId e |}.

Definition set_scale (v : Qc) (e : Engine Sel) : Engine Sel :=
  {| shapes := shapes e; selectionController := selectionController e;
     canvasId := canvasId e; readOnly := readOnly e; activeTool := activeTool
     e; isDrawing := isDrawing e; startX := startX e; startY := startY e;
     scale := v; panX := panX e; panY := panY e; isPanning := isPanning e;
     lastMouseX := lastMouseX e; lastMouseY := lastMouseY e; cachedCanvasRect
     := cachedCanvasRect e; strokeWidth := strokeWidth e; strokeFill :=
     strokeFill e; bgFill := bgFill e; strokeStyle := strokeStyle e;
     roughStyle := roughStyle e; fillStyle := fillStyle e; fontFamily :=
     fontFamily e; fontSize := fontSize e; saveTimeoutId := saveTimeoutId e |}.

Definition set_panX (v : Qc) (e : Engine Sel) : Engine Sel :=
  {| shapes := shapes e; selectionController := selectionController e;
     canvasId := canvasId e; readOnly := readOnly e; activeTool := activeTool
     e; isDrawing := isDrawing e; startX := startX e; startY := startY e;
     scale := scale e; panX := v; panY := panY e; isPanning := isPanning e;
     lastMouseX := lastMouseX e; lastMouseY := lastMouseY e; cachedCanvasRect
     := cachedCanvasRect e; strokeWidth := strokeWidth e; strokeFill :=
     strokeFill e; bgFill := bgFill e; strokeStyle := strokeStyle e;
     roughStyle := roughStyle e; fillStyle := fillStyle e; fontFamily :=
     fontFamily e; fontSize := fontSize e; saveTimeoutId := saveTimeoutId e |}.

Definition set_panY (v : Qc) (e : Engine Sel) : Engine Sel :=
  {| shapes := shapes e; selectionController := selectionController e;
     canvasId := canvasId e; readOnly := readOnly e; activeTool := activeTool
     e; isDrawing := isDrawing e; startX := startX e; startY := startY e;
     scale := scale e; panX := panX e; panY := v; isPanning := isPanning e;
     lastMouseX := lastMouseX e; lastMouseY := lastMouseY e; cachedCanvasRect
     := cachedCanvasRect e; strokeWidth := strokeWidth e; strokeFill :=
     strokeFill e; bgFill := bgFill e; strokeStyle := strokeStyle e;
     roughStyle := roughStyle e; fillStyle := fillStyle e; fontFamily :=
     fontFamily e; fontSize := fontSize e; saveTimeoutId := saveTimeoutId e |}.

Definition set_isPanning (v : bool) (e : Engine Sel) : Engine Sel :=
  {| shapes := shapes e; selectionController := selectionController e;
     canvasId := canvasId e; readOnly := readOnly e; activeTool := activeTool
     e; isDrawing := isDrawing e; startX := startX e; startY := startY e;
     scale := scale e; panX := panX e; panY := panY e; isPanning := v;
     lastMouseX := lastMouseX e; lastMouseY := lastMouseY e; cachedCanvasRect
     := cachedCanvasRect e; strokeWidth := strokeWidth e; strokeFill :=
     strokeFill e; bgFill := bgFill e; strokeStyle := strokeStyle e;
     roughStyle := roughStyle e; fillStyle := fillStyle e; fontFamily :=
     fontFamily e; fontSize := fontSize e; saveTimeoutId := saveTimeoutId e |}.

Definition set_lastMouseX (v : Qc) (e : Engine Sel) : Engine Sel :=
  {| shapes := shapes e; selectionController := selectionController e;
     canvasId := canvasId e; readOnly := readOnly e; activeTool := activeTool
     e; isDrawing := isDrawing e; startX := startX e; startY := startY e;
     scale := scale e; panX := panX e; panY := panY e; isPanning := isPanning
     e; lastMouseX := v; lastMouseY := lastMouseY e; cachedCanvasRect :=
     cachedCanvasRect e; strokeWidth := strokeWidth e; strokeFill :=
     strokeFill e; bgFill := bgFill e; strokeStyle := strokeStyle e;
     roughStyle := roughStyle e; fillStyle := fillStyle e; fontFamily :=
     fontFamily e; fontSize := fontSize e; saveTimeoutId := saveTimeoutId e |}.

Definition set_lastMouseY (v : Qc) (e : Engine Sel) : Engine Sel :=
  {| shapes := shapes e; selectionController := selectionController e;
     canvasId := canvasId e; readOnly := readOnly e; activeTool := activeTool
     e; isDrawing := isDrawing e; startX := startX e; startY := startY e;
     scale := scale e; panX := panX e; panY := panY e; isPanning := isPanning
     e; lastMouseX := lastMouseX e; lastMouseY := v; cachedCanvasRect :=
     cachedCanvasRect e; strokeWidth := strokeWidth e; strokeFill :=
     strokeFill e; bgFill := bgFill e; strokeStyle := strokeStyle e;
     roughStyle := roughStyle e; fillStyle := fillStyle e; fontFamily :=
     fontFamily e; fontSize := fontSize e; saveTimeoutId := saveTimeoutId e |}.

Definition set_cachedCanvasRect (v : option DOMRect) (e : Engine Sel) : Engine Sel :=
  {| shapes := shapes e; selectionController := selectionController e;
     canvasId := canvasId e; readOnly := readOnly e; activeTool := activeTool
     e; isDrawing := isDrawing e; startX := startX e; startY := startY e;
     scale := scale e; panX := panX e; panY := panY e; isPanning := isPanning
     e; lastMouseX := lastMouseX e; lastMouseY := lastMouseY e;
     cachedCanvasRect := v; strokeWidth := strokeWidth e; strokeFill :=
     strokeFill e; bgFill := bgFill e; strokeStyle := strokeStyle e;
     roughStyle := roughStyle e; fillStyle := fillStyle e; fontFamily :=
     fontFamily e; fontSize := fontSize e; saveTimeoutId := saveTimeoutId e |}.

Definition set_saveTimeoutId (v : option positive) (e : Engine Sel) : Engine Sel :=
  {| shapes := shapes e; selectionController := selectionController e;
     canvasId := canvasId e; readOnly := readOnly e; activeTool := activeTool
     e; isDrawing := isDrawing e; startX := startX e; startY := startY e;
     scale := scale e; panX := panX e; panY := panY e; isPanning := isPanning
     e; lastMouseX := lastMouseX e; lastMouseY := lastMouseY e;
     cachedCanvasRect := cachedCanvasRect e; strokeWidth := strokeWidth e;
     strokeFill := strokeFill e; bgFill := bgFill e; strokeStyle :=
     strokeStyle e; roughStyle := roughStyle e; fillStyle := fillStyle e;
     fontFamily := fontFamily e; fontSize := fontSize e; saveTimeoutId := v |}.

End Setters.

Definition set_localStorage (v : gmap string string) (h : Host) : Host :=
  {| localStorage := v; clock := clock h; timers := timers h; nextTimerId :=
     nextTimerId h; remoteSaves := remoteSaves h; console := console h;
     frames := frames h; cursor := cursor h; devicePixelRatio :=
     devicePixelRatio h; canvasRect := canvasRect h; textEditorContainer :=
     textEditorContainer h; textareas := textareas h |}.

Definition set_clock (v : nat) (h : Host) : Host :=
  {| localStorage := localStorage h; clock := v; timers := timers h;
     nextTimerId := nextTimerId h; remoteSaves := remoteSaves h;
     console := console h; frames := frames h; cursor := cursor h;
     devicePixelRatio := devicePixelRatio h; canvasRect := canvasRect h;
     textEditorContainer := textEditorContainer h; textareas := textareas h |}.

Definition set_timers (v : list Timer) (h : Host) : Host :=
  {| localStorage := localStorage h; clock := clock h; timers := v;
     nextTimerId := nextTimerId h; remoteSaves := remoteSaves h;
     console := console h; frames := frames h; cursor := cursor h;
     devicePixelRatio := devicePixelRatio h; canvasRect := canvasRect h;
     textEditorContainer := textEditorContainer h; textareas := textareas h |}.

Definition set_nextTimerId (v : positive) (h : Host) : Host :=
  {| localStorage := localStorage h; clock := clock h; timers := timers h;
     nextTimerId := v; remoteSaves := remoteSaves h; console := console h;
     frames := frames h; cursor := cursor h; devicePixelRatio :=
     devicePixelRatio h; canvasRect := canvasRect h; textEditorContainer :=
     textEditorContainer h; textareas := textareas h |}.

Definition set_remoteSaves (v : list (string * list Shape)) (h : Host) : Host :=
  {| localStorage := localStorage h; clock := clock h; timers := timers h;
     nextTimerId := nextTimerId h; remoteSaves := v; console := console h;
     frames := frames h; cursor := cursor h; devicePixelRatio :=
     devicePixelRatio h; canvasRect := canvasRect h; textEditorContainer :=
     textEditorContainer h; textareas := textareas h |}.

Definition set_console (v : list string) (h : Host) : Host :=
  {| localStorage := localStorage h; clock := clock h; timers := timers h;
     nextTimerId := nextTimerId h; remoteSaves := remoteSaves h;
     console := v; frames := frames h; cursor := cursor h; devicePixelRatio
     := devicePixelRatio h; canvasRect := canvasRect h; textEditorContainer
     := textEditorContainer h; textareas := textareas h |}.

Definition set_frames (v : list Frame) (h : Host) : Host :=
  {| localStorage := localStorage h; clock := clock h; timers := timers h;
     nextTimerId := nextTimerId h; remoteSaves := remoteSaves h;
     console := console h; frames := v; cursor := cursor h; devicePixelRatio
     := devicePixelRatio h; canvasRect := canvasRect h; textEditorContainer
     := textEditorContainer h; textareas := textareas h |}.

Definition set_cursor (v : string) (h : Host) : Host :=
  {| localStorage := localStorage h; clock := clock h; timers := timers h;
     nextTimerId := nextTimerId h; remoteSaves := remoteSaves h;
     console := console h; frames := frames h; cursor := v; devicePixelRatio
     := devicePixelRatio h; canvasRect := canvasRect h; textEditorContainer
     := textEditorContainer h; textareas := textareas h |}.

Definition set_devicePixelRatio (v : Qc) (h : Host) : Host :=
  {| localStorage := localStorage h; clock := clock h; timers := timers h;
     nextTimerId := nextTimerId h; remoteSaves := remoteSaves h;
     console := console h; frames := frames h; cursor := cursor h;
     devicePixelRatio := v; canvasRect := canvasRect h; textEditorContainer
     := textEditorContainer h; textareas := textareas h |}.

Definition set_canvasRect (v : DOMRect) (h : Host) : Host :=
  {| localStorage := localStorage h; clock := clock h; timers := timers h;
     nextTimerId := nextTimerId h; remoteSaves := remoteSaves h;
     console := console h; frames := frames h; cursor := cursor h;
     devicePixelRatio := devicePixelRatio h; canvasRect := v;
     textEditorContainer := textEditorContainer h; textareas := textareas h |}.

Definition set_textareas (v : list Textarea) (h : Host) : Host :=
  {| localStorage := localStorage h; clock := clock h; timers := timers h;
     nextTimerId := nextTimerId h; remoteSaves := remoteSaves h;
     console := console h; frames := frames h; cursor := cursor h;
     devicePixelRatio := devicePixelRatio h; canvasRect := canvasRect h;
     textEditorContainer := textEditorContainer h; textareas := v |}.

Definition upd_engine {Sel} (f : Engine Sel -> Engine Sel) (w : World Sel) : World Sel :=
  {| engine := f (engine w); host := host w;
     awaitingSaves := awaitingSaves w; awaitingFetch := awaitingFetch w |}.

Definition upd_host {Sel} (f : Host -> Host) (w : World Sel) : World Sel :=
  {| engine := engine w; host := f (host w);
     awaitingSaves := awaitingSaves w; awaitingFetch := awaitingFetch w |}.

Definition set_awaitingSaves {Sel} (n : nat) (w : World Sel) : World Sel :=
  {| engine := engine w; host := host w;
     awaitingSaves := n; awaitingFetch := awaitingFetch w |}.

Definition set_awaitingFetch {Sel} (b : bool) (w : World Sel) : World Sel :=
  {| engine := engine w; host := host w;
     awaitingSaves := awaitingSaves w; awaitingFetch := b |}.

(** [a === b] on tools. *)
Definition same_tool (a b : ToolType) : bool :=
  match a, b with
  | selection, selection | grab, grab | eraser, eraser | text, text
  | free_draw, free_draw | rectangle, rectangle | ellipse, ellipse
  | line, line | arrow, arrow | diamond, diamond => true
  | _, _ => false
  end.

(** Equality of two numbers, decided on their canonical fractions. *)
Definition Qc_eqb (a b : Qc) : bool := Qeq_bool a b.

(** An integer as a number. *)
Definition ofZ (z : Z) : Qc := Q2Qc (inject_Z z).

(* ================================================================== *)
(** ** The engine's methods *)

Section Methods.
Context {Sel Bounds Handle : Type}.
Context {SC : SelectionController Sel Bounds Handle} {EX : Externals}.

Local Abbreviation World := (World Sel).
Local Abbreviation Engine := (Engine Sel).

(** `procastify_canvas_${this.canvasId}` *)
Definition storageKey (id : string) : string := "procastify_canvas_" +:+ id.

(** [console.log] and [console.error] append to the console. *)
Definition console_write (msg : string) (w : World) : World :=
  upd_host (fun h => set_console (console h ++ [msg]) h) w.

(** *** Rendering *)

(** [const dpr = window.devicePixelRatio || 1]: zero is falsy. *)
Definition currentDpr (h : Host) : Qc :=
  if Qc_eqb (devicePixelRatio h) 0 then 1 else devicePixelRatio h.

(** The arguments of the one [setTransform] call of [render]. *)
Definition renderTransform (dpr : Qc) (e : Engine) : Transform :=
  {| tr_a := dpr * scale e; tr_b := 0;
     tr_c := 0; tr_d := dpr * scale e;
     tr_e := dpr * panX e; tr_f := dpr * panY e |}.

Definition render (w : World) : World :=
  let e := engine w in
  let box :=
    if same_tool (activeTool e) selection
    then getSelectedShape (selectionController e) else None in
  let frame :=
    {| frame_transform := renderTransform (currentDpr (host w)) e;
       frame_shapes := shapes e;
       frame_selectionBox := box |} in
  upd_host (fun h => set_frames (frames h ++ [frame]) h) w.

(** *** Coordinate system *)

(** [getWorldPos] for a mouse event (the only events the engine listens to).
    The buffer coordinates the source also computes are not used by it. *)
Definition getWorldPos (ev : MouseEvent) (w : World) : Qc * Qc :=
  let e := engine w in
  let rect := default (canvasRect (host w)) (cachedCanvasRect e) in
  let x_css := clientX ev - rect_left rect in
  let y_css := clientY ev - rect_top rect in
  ((x_css - panX e) / scale e, (y_css - panY e) / scale e).

(** *** Persistence *)

Definition clearTimeout (id : positive) (h : Host) : Host :=
  set_timers (List.filter (fun t => negb (Pos.eqb (timer_id t) id)) (timers h)) h.

Definition setTimeout (cb : TimerCallback) (delay : nat) (h : Host) : positive * Host :=
  let id := nextTimerId h in
  let t := {| timer_id := id; timer_due := clock h + delay; timer_callback := cb |} in
  (id, set_nextTimerId (Pos.succ id) (set_timers (timers h ++ [t]) h)).

Definition save (w : World) : World :=
  let h := match saveTimeoutId (engine w) with
           | Some id => clearTimeout id (host w)
           | None => host w
           end in
  let '(id, h) := setTimeout RunPersist 500 h in
  upd_engine (set_saveTimeoutId (Some id)) (upd_host (fun _ => h) w).

(** The first line of [persistToStorage]:
    [!this.canvasId || this.canvasId === 'undefined' || this.readOnly]. *)
Definition persistBlocked (e : Engine) : bool :=
  bool_decide (canvasId e = EmptyString) || bool_decide (canvasId e = "undefined") || readOnly e.

(** [persistToStorage] up to its [await]: the call of
    [StorageService.saveCanvasElements(this.canvasId, this.shapes)]. *)
Definition persistToStorage (w : World) : World :=
  let e := engine w in
  if persistBlocked e then w
  else set_awaitingSaves (S (awaitingSaves w))
         (upd_host (fun h => set_remoteSaves (remoteSaves h ++ [(canvasId e, shapes e)]) h) w).

(** [persistToStorage] after its [await], when the oldest call in flight
    settles: nothing more when it resolved, the [catch] block when it
    rejected, which reads [this.shapes] as it is by then. *)
Definition saveSettled (ok : bool) (w : World) : World :=
  match awaitingSaves w with
  | O => w
  | S n =>
      let w := set_awaitingSaves n w in
      if ok then w
      else
        let w := console_write "Failed to save shapes:" w in
        let e := engine w in
        upd_host (fun h =>
          set_localStorage
            (<[storageKey (canvasId e) := JSON_stringify (shapes e)]> (localStorage h)) h) w
  end.

(** [loadFromFirestore] up to its [await]. *)
Definition loadFromFirestore (w : World) : World :=
  let w := console_write ("[CANVAS] Loading from Firestore for " +:+ canvasId (engine w)) w in
  set_awaitingFetch true w.

(** [loadFromFirestore] after its [await]. *)
Definition fetchSettled (r : FetchResult) (w : World) : World :=
  if awaitingFetch w then
    let w := set_awaitingFetch false w in
    match r with
    | FetchRejected => console_write "Failed to load shapes from Firestore:" w
    | FetchResolved elements =>
        let n := match elements with Some l => length l | None => 0%nat end in
        let w := console_write ("[CANVAS] Loaded " +:+ pretty n +:+ " elements") w in
        match elements with
        | Some (s :: l) => render (upd_engine (set_shapes (s :: l)) w)
        | _ => w
        end
    end
  else w.

Definition init (w : World) : World :=
  let key := storageKey (canvasId (engine w)) in
  let w :=
    match localStorage (host w) !! key with
    | Some stored =>
        if bool_decide (stored = EmptyString) then w
        else match JSON_parse stored with
             | Some l => upd_engine (set_shapes l) w
             | None => console_write "Failed to load shapes from localStorage" w
             end
    | None => w
    end in
  let w := render w in
  if readOnly (engine w) then w else loadFromFirestore w.

(** [new CanvasEngine(canvas, canvasId?, readOnly)] in the browser [h]. *)
Definition newEngine (id : option string) (ro : bool) (h : Host) : World :=
  let cid := match id with
             | Some s => if bool_decide (s = EmptyString) then LOCALSTORAGE_CANVAS_KEY else s
             | None => LOCALSTORAGE_CANVAS_KEY
             end in
  init {| engine :=
            {| shapes := []; selectionController := sc_new;
               canvasId := cid; readOnly := ro;
               activeTool := selection; isDrawing := false;
               startX := 0; startY := 0;
               scale := 1; panX := 0; panY := 0; isPanning := false;
               lastMouseX := 0; lastMouseY := 0; cachedCanvasRect := None;
               strokeWidth := 2; strokeFill := "#ffffff"; bgFill := "transparent";
               strokeStyle := "solid"; roughStyle := 0; fillStyle := "solid";
               fontFamily := "normal"; fontSize := "Medium";
               saveTimeoutId := None |};
          host := h; awaitingSaves := 0; awaitingFetch := false |}.

(** *** Public methods *)

Definition loadElements (elements : list Shape) (w : World) : World :=
  render (upd_engine (set_shapes elements) w).

Definition addShapes (elements : list Shape) (w : World) : World :=
  save (render (upd_engine (fun e => set_shapes (shapes e ++ elements) e) w)).

Definition setTool (tool : ToolType) (w : World) : World :=
  let w := upd_engine (fun e =>
             set_selectionController (setSelectedShape None (selectionController e))
               (set_isPanning false (set_isDrawing false (set_activeTool tool e)))) w in
  let w := upd_host (set_cursor (if same_tool tool grab then "grab" else "crosshair")) w in
  render w.

Definition setScale (s : Qc) (w : World) : World :=
  render (upd_engine (set_scale s) w).

Definition clear (w : World) : World :=
  render (save (upd_engine (set_shapes []) w)).

Definition resize (w : World) : World :=
  render (upd_engine (set_cachedCanvasRect None) w).

(** *** Pointer handlers *)

(** The start of [handleTextEntry]: without the editor container nothing
    happens, with it a textarea is placed at the pointer and a focus timer is
    set. (What its blur handler does later is a keyboard matter and is not
    part of the pointer transitions below.) *)
Definition handleTextEntry (cx cy worldX worldY : Qc) (w : World) : World :=
  if textEditorContainer (host w) then
    let ta := {| ta_left := cx; ta_top := cy; ta_color := strokeFill (engine w);
                 ta_worldX := worldX; ta_worldY := worldY |} in
    upd_host (fun h => snd (setTimeout FocusTextarea 10 (set_textareas (textareas h ++ [ta]) h))) w
  else w.

(** The shape a drawing tool pushes on pointer-down; the four other tools
    push nothing. *)
Definition newShape (e : Engine) (id : string) (x y : Qc) : option Shape :=
  let mk k := Some {| shape_id := id; shape_x := x; shape_y := y;
                      shape_strokeWidth := strokeWidth e;
                      shape_strokeFill := strokeFill e; shape_kind := k |} in
  match activeTool e with
  | free_draw => mk (FreeDraw [{| pt_x := x; pt_y := y |}] (bgFill e) (strokeStyle e) (fillStyle e))
  | rectangle => mk (Rectangle 0 0 (bgFill e) "sharp" (strokeStyle e) (roughStyle e) (fillStyle e))
  | ellipse => mk (Ellipse 0 0 (bgFill e) (strokeStyle e) (roughStyle e) (fillStyle e))
  | line => mk (Line x y (strokeStyle e) (roughStyle e))
  | arrow => mk (Arrow x y (strokeStyle e) (roughStyle e))
  | diamond => mk (Diamond 0 0 (bgFill e) "sharp" (strokeStyle e) (roughStyle e) (fillStyle e))
  | selection | grab | eraser | text => None
  end.

(** [this.shapes.filter(s => !this.selectionController.isPointInShape(x, y, s))] *)
Definition eraseAt (x y : Qc) (e : Engine) : list Shape :=
  List.filter (fun s => negb (isPointInShape (selectionController e) x y s)) (shapes e).

(** The [selection] branch of [handleMouseDown]. *)
Definition selectAt (x y : Qc) (w : World) : World :=
  let e := engine w in
  let sel := selectionController e in
  let grabbed :=
    match getSelectedShape sel with
    | Some selected =>
        let bounds := getShapeBounds sel selected in
        match getResizeHandleAtPoint sel x y bounds with
        | Some _ => Some (startResizing x y sel)
        | None =>
            if isPointInShape sel x y selected
            then Some (startDragging x y sel) else None
        end
    | None => None
    end in
  match grabbed with
  | Some sel' => upd_engine (set_selectionController sel') w
  | None =>
      let clickedShape := List.find (isPointInShape sel x y) (rev (shapes e)) in
      let sel := setSelectedShape clickedShape sel in
      let sel := match clickedShape with
                 | Some _ => startDragging x y sel
                 | None => sel
                 end in
      render (upd_engine (set_selectionController sel) w)
  end.

(** [handleMouseDown]; [uuid] is what [uuidv4()] returns if it is called. *)
Definition handleMouseDown (ev : MouseEvent) (uuid : string) (w : World) : World :=
  let w := upd_engine (fun e =>
             set_lastMouseY (clientY ev) (set_lastMouseX (clientX ev)
               (set_cachedCanvasRect (Some (canvasRect (host w))) e))) w in
  if same_tool (activeTool (engine w)) grab then
    upd_host (set_cursor "grabbing") (upd_engine (set_isPanning true) w)
  else
    let '(x, y) := getWorldPos ev w in
    let w := upd_engine (fun e => set_startY y (set_startX x e)) w in
    if same_tool (activeTool (engine w)) eraser then
      render (save (upd_engine (fun e => set_shapes (eraseAt x y e) e) w))
    else if same_tool (activeTool (engine w)) selection then
      selectAt x y w
    else if same_tool (activeTool (engine w)) text then
      handleTextEntry (clientX ev) (clientY ev) x y w
    else
      let w := upd_engine (set_isDrawing true) w in
      match newShape (engine w) uuid x y with
      | Some s => upd_engine (fun e => set_shapes (shapes e ++ [s]) e) w
      | None => w
      end.

(** What a pointer-move does to the shape being drawn. *)
Definition dragShape (startX startY x y : Qc) (s : Shape) : Shape :=
  let with_kind k := {| shape_id := shape_id s; shape_x := shape_x s; shape_y := shape_y s;
                        shape_strokeWidth := shape_strokeWidth s;
                        shape_strokeFill := shape_strokeFill s; shape_kind := k |} in
  match shape_kind s with
  | FreeDraw points bg ss fs =>
      with_kind (FreeDraw (points ++ [{| pt_x := x; pt_y := y |}]) bg ss fs)
  | Rectangle _ _ bg r ss rs fs =>
      with_kind (Rectangle (x - startX) (y - startY) bg r ss rs fs)
  | Diamond _ _ bg r ss rs fs =>
      with_kind (Diamond (x - startX) (y - startY) bg r ss rs fs)
  | Ellipse _ _ bg ss rs fs =>
      {| shape_id := shape_id s;
         shape_x := startX + (x - startX) / 2;
         shape_y := startY + (y - startY) / 2;
         shape_strokeWidth := shape_strokeWidth s;
         shape_strokeFill := shape_strokeFill s;
         shape_kind := Ellipse (Qcabs (x - startX) / 2) (Qcabs (y - startY) / 2) bg ss rs fs |}
  | Line _ _ ss rs => with_kind (Line x y ss rs)
  | Arrow _ _ ss rs => with_kind (Arrow x y ss rs)
  | Text _ _ _ _ _ _ => s
  end.

(** ["selection", "grab", "eraser", "text"].includes(tool) *)
Definition notDrawingTool (t : ToolType) : bool :=
  match t with selection | grab | eraser | text => true | _ => false end.

Definition handleMouseMove (ev : MouseEvent) (w : World) : World :=
  let deltaX := clientX ev - lastMouseX (engine w) in
  let deltaY := clientY ev - lastMouseY (engine w) in
  let w := upd_engine (fun e => set_lastMouseY (clientY ev) (set_lastMouseX (clientX ev) e)) w in
  let e := engine w in
  if isPanning e && same_tool (activeTool e) grab then
    render (upd_engine (fun e => set_panY (panY e + deltaY) (set_panX (panX e + deltaX) e)) w)
  else if same_tool (activeTool e) selection then
    let '(x, y) := getWorldPos ev w in
    let sel := selectionController e in
    if isDraggingShape sel then
      let '(sel', shapes') := updateDragging x y sel (shapes e) in
      render (upd_engine (fun e => set_shapes shapes' (set_selectionController sel' e)) w)
    else if isResizingShape sel then
      let '(sel', shapes') := updateResizing x y sel (shapes e) in
      render (upd_engine (fun e => set_shapes shapes' (set_selectionController sel' e)) w)
    else w
  else if same_tool (activeTool e) eraser && N.eqb (buttons ev) 1 then
    let '(x, y) := getWorldPos ev w in
    let initialCount := length (shapes e) in
    let w := upd_engine (fun e => set_shapes (eraseAt x y e) e) w in
    if Nat.ltb (length (shapes (engine w))) initialCount then render (save w) else w
  else if negb (isDrawing e) then w
  else if notDrawingTool (activeTool e) then w
  else
    let '(x, y) := getWorldPos ev w in
    match last (shapes e) with
    | None => w
    | Some currentShape =>
        let s := dragShape (startX e) (startY e) x y currentShape in
        render (upd_engine (set_shapes (<[(length (shapes e) - 1)%nat := s]> (shapes e))) w)
    end.

Definition handleMouseUp (w : World) : World :=
  let w := upd_engine (set_cachedCanvasRect None) w in
  if isPanning (engine w) then
    upd_host (set_cursor "grab") (upd_engine (set_isPanning false) w)
  else
    let w := upd_engine (fun e =>
               set_selectionController
                 (stopResizing (stopDragging (selectionController e)))
                 (set_isDrawing false e)) w in
    render (save w).

(** *** The event loop *)

Definition runCallback (cb : TimerCallback) (w : World) : World :=
  match cb with
  | RunPersist => persistToStorage w
  | FocusTextarea => w
  end.

Definition isDue (now : nat) (t : Timer) : bool := Nat.leb (timer_due t) now.

(** One millisecond passes; the timers that are due fire, oldest first. *)
Definition tick (w : World) : World :=
  let now := S (clock (host w)) in
  let due := List.filter (isDue now) (timers (host w)) in
  let rest := List.filter (fun t => negb (isDue now t)) (timers (host w)) in
  let w := upd_host (fun h => set_timers rest (set_clock now h)) w in
  fold_left (fun w t => runCallback (timer_callback t) w) due w.

Fixpoint ticks (n : nat) (w : World) : World :=
  match n with
  | O => w
  | S n => ticks n (tick w)
  end.

(** Everything that can happen to an engine once it is constructed. *)
Inductive Event :=
| MouseDown (ev : MouseEvent) (uuid : string)
| MouseMove (ev : MouseEvent)
| MouseUp
| Tick
| SaveSettled (ok : bool)
| FetchSettled (r : FetchResult)
| LoadElements (elements : list Shape)
| AddShapes (elements : list Shape)
| SetTool (tool : ToolType)
| SetScale (s : Qc)
| Clear
| Resize
| Layout (rect : DOMRect) (dpr : Qc).

Definition step (ev : Event) (w : World) : World :=
  match ev with
  | MouseDown e uuid => handleMouseDown e uuid w
  | MouseMove e => handleMouseMove e w
  | MouseUp => handleMouseUp w
  | Tick => tick w
  | SaveSettled ok => saveSettled ok w
  | FetchSettled r => fetchSettled r w
  | LoadElements l => loadElements l w
  | AddShapes l => addShapes l w
  | SetTool t => setTool t w
  | SetScale s => setScale s w
  | Clear => clear w
  | Resize => resize w
  | Layout rect dpr => upd_host (fun h => set_devicePixelRatio dpr (set_canvasRect rect h)) w
  end.

Definition run (evs : list Event) (w : World) : World :=
  fold_left (fun w ev => step ev w) evs w.

End Methods.

(* ================================================================== *)
(** ** A selection controller and a codec to run the engine with *)

Module Reference.

Definition Qc_leb (a b : Qc) : bool := Qle_bool a b.

Definition Qc_min (a b : Qc) : Qc := if Qc_leb a b then a else b.

(** [p] lies between [a] and [b], whichever of the two is smaller. *)
Definition between (a b p : Qc) : bool :=
  (Qc_leb a p && Qc_leb p b) || (Qc_leb b p && Qc_leb p a).

(** Modelled from the spec: ./SelectionController is not among the sources.
    Section 3 gives it at most one selected shape and a drag or resize
    session that records the world point where it began; section 4.3 tests
    rectangle and ellipse against the normalized bounding box, diamond
    against its four vertices around the centre, and lets a drag translate
    the anchor (for line and arrow both endpoints) by the pointer's
    displacement since the session began. The hit radius of lines, strokes
    and resize handles and the glyph metrics of text are not given there, so
    this controller never hits those. *)
Inductive Mode := dragging | resizing.

Record Session := { mode : Mode; originWorldPoint : Qc * Qc; originShape : Shape }.

Record Sel := { selectedShape : option Shape; session : option Session }.

Definition hit (px py : Qc) (s : Shape) : bool :=
  match shape_kind s with
  | Rectangle w h _ _ _ _ _ =>
      between (shape_x s) (shape_x s + w) px && between (shape_y s) (shape_y s + h) py
  | Ellipse rx ry _ _ _ _ =>
      between (shape_x s - rx) (shape_x s + rx) px && between (shape_y s - ry) (shape_y s + ry) py
  | Diamond w h _ _ _ _ _ =>
      Qc_leb (Qcabs (px - shape_x s) * Qcabs h + Qcabs (py - shape_y s) * Qcabs w)
             (Qcabs w * Qcabs h / 2)
  | _ => false
  end.

(** The normalized bounding box; a stroke or a text, whose extent the
    specification does not give, is bounded by its anchor. *)
Definition bounds (s : Shape) : DOMRect :=
  let box x y w h :=
    {| rect_left := Qc_min x (x + w); rect_top := Qc_min y (y + h);
       rect_width := Qcabs w; rect_height := Qcabs h |} in
  match shape_kind s with
  | Rectangle w h _ _ _ _ _ => box (shape_x s) (shape_y s) w h
  | Ellipse rx ry _ _ _ _ => box (shape_x s - rx) (shape_y s - ry) (2 * rx) (2 * ry)
  | Diamond w h _ _ _ _ _ => box (shape_x s - w / 2) (shape_y s - h / 2) w h
  | Line tx ty _ _ | Arrow tx ty _ _ =>
      box (shape_x s) (shape_y s) (tx - shape_x s) (ty - shape_y s)
  | _ => box (shape_x s) (shape_y s) 0 0
  end.

Definition translate (dx dy : Qc) (s : Shape) : Shape :=
  {| shape_id := shape_id s; shape_x := shape_x s + dx; shape_y := shape_y s + dy;
     shape_strokeWidth := shape_strokeWidth s; shape_strokeFill := shape_strokeFill s;
     shape_kind :=
       match shape_kind s with
       | Line tx ty ss rs => Line (tx + dx) (ty + dy) ss rs
       | Arrow tx ty ss rs => Arrow (tx + dx) (ty + dy) ss rs
       | k => k
       end |}.

Definition begin (m : Mode) (x y : Qc) (c : Sel) : Sel :=
  match selectedShape c with
  | Some s => {| selectedShape := Some s;
                 session := Some {| mode := m; originWorldPoint := (x, y); originShape := s |} |}
  | None => c
  end.

Definition in_mode (m : Mode) (c : Sel) : bool :=
  match session c, m with
  | Some {| mode := dragging |}, dragging => true
  | Some {| mode := resizing |}, resizing => true
  | _, _ => false
  end.

Definition stop (m : Mode) (c : Sel) : Sel :=
  if in_mode m c then {| selectedShape := selectedShape c; session := None |} else c.

Definition drag (x y : Qc) (c : Sel) (l : list Shape) : Sel * list Shape :=
  match session c with
  | Some {| mode := dragging; originWorldPoint := (ox, oy); originShape := s0 |} =>
      let s := translate (x - ox) (y - oy) s0 in
      ({| selectedShape := Some s; session := session c |},
       map (fun t => if String.eqb (shape_id t) (shape_id s0) then s else t) l)
  | _ => (c, l)
  end.

#[global] Instance controller : SelectionController Sel DOMRect unit := {|
  sc_new := {| selectedShape := None; session := None |};
  getSelectedShape := selectedShape;
  setSelectedShape := fun s c => {| selectedShape := s; session := session c |};
  getShapeBounds := fun _ => bounds;
  getResizeHandleAtPoint := fun _ _ _ _ => None;
  isPointInShape := fun _ => hit;
  startResizing := begin resizing;
  startDragging := begin dragging;
  isDraggingShape := in_mode dragging;
  isResizingShape := in_mode resizing;
  updateDragging := drag;
  updateResizing := fun _ _ c l => (c, l);
  stopDragging := stop dragging;
  stopResizing := stop resizing
|}.

(** The text of a scene is abbreviated to the ids of its shapes; reading a
    text back finds the scene among the [scenes] given, and fails on any
    other text as [JSON.parse] does on malformed input. *)
Definition write (l : list Shape) : string :=
  "[" +:+ String.concat "," (map shape_id l) +:+ "]".

Definition codec (scenes : list (list Shape)) : Externals := {|
  JSON_parse := fun s => List.find (fun l => String.eqb (write l) s) scenes;
  JSON_stringify := write;
  LOCALSTORAGE_CANVAS_KEY := "canvas"
|}.

(** A browser in which nothing has happened yet: an 800 by 600 canvas at
    the window's origin, device pixel ratio 2. *)
Definition browser (storage : gmap string string) : Host :=
  {| localStorage := storage; clock := 0; timers := []; nextTimerId := 1;
     remoteSaves := []; console := []; frames := []; cursor := EmptyString;
     devicePixelRatio := 2;
     canvasRect := {| rect_left := 0; rect_top := 0;
                      rect_width := ofZ 800; rect_height := ofZ 600 |};
     textEditorContainer := true; textareas := [] |}.

Definition rect_shape (id : string) (x y w h : Z) : Shape :=
  {| shape_id := id; shape_x := ofZ x; shape_y := ofZ y; shape_strokeWidth := 2;
     shape_strokeFill := "#ffffff";
     shape_kind := Rectangle (ofZ w) (ofZ h) "transparent" "sharp" "solid" 0 "solid" |}.

Definition r1 : Shape := rect_shape "r1" 10 10 100 50.
Definition r2 : Shape := rect_shape "r2" 200 10 40 40.
Definition r3 : Shape := rect_shape "r3" 300 300 20 20.

Definition mouse (x y : Z) (b : N) : MouseEvent :=
  {| clientX := ofZ x; clientY := ofZ y; buttons := b |}.

End Reference.

(* ================================================================== *)
(** ** The vocabulary of the properties *)

(** The render pass draws the logical point [p] at buffer pixel [dpr * p]
    (the comment in [getWorldPos]); a buffer pixel is therefore seen at the
    CSS position obtained by dividing by [dpr]. *)
Definition deviceToCss (dpr : Qc) (p : Qc * Qc) : Qc * Qc := (fst p / dpr, snd p / dpr).

(** The mouse event of a pointer at CSS position [css] inside the canvas
    element whose on-screen rectangle is [rect]. *)
Definition pointerAt (rect : DOMRect) (css : Qc * Qc) : MouseEvent :=
  {| clientX := rect_left rect + fst css; clientY := rect_top rect + snd css; buttons := 0 |}.

Section Vocabulary.
Context {Sel Bounds Handle : Type}.
Context {SC : SelectionController Sel Bounds Handle} {EX : Externals}.

Local Abbreviation World := (World Sel).
Local Abbreviation Engine := (Engine Sel).


(** The timers left after [save]: the one [saveTimeoutId] names is gone, a
    new one that runs [persistToStorage] 500 ms from now is last. *)
Definition rearmed (w : World) : list Timer :=
  match saveTimeoutId (engine w) with
  | Some id => List.filter (fun t => negb (Pos.eqb (timer_id t) id)) (timers (host w))
  | None => timers (host w)
  end ++ [{| timer_id := nextTimerId (host w);
             timer_due := clock (host w) + 500;
             timer_callback := RunPersist |}].

(** [w'] is [w] after one more call of [save]. *)
Definition saveScheduled (w w' : World) : Prop :=
  timers (host w') = rearmed w /\
  saveTimeoutId (engine w') = Some (nextTimerId (host w)) /\
  nextTimerId (host w') = Pos.succ (nextTimerId (host w)).

(** No timer was set or cancelled between [w] and [w']. *)
Definition nothingScheduled (w w' : World) : Prop :=
  timers (host w') = timers (host w) /\
  saveTimeoutId (engine w') = saveTimeoutId (engine w) /\
  nextTimerId (host w') = nextTimerId (host w).

(** No call of the storage service and no write to the local fallback
    storage happened between [w] and [w']. *)
Definition nothingWritten (w w' : World) : Prop :=
  remoteSaves (host w') = remoteSaves (host w) /\
  awaitingSaves w' = awaitingSaves w /\
  localStorage (host w') = localStorage (host w).

(** The world position [handleMouseDown] computes: it has just cached the
    canvas rectangle. *)
Definition downPos (ev : MouseEvent) (w : World) : Qc * Qc :=
  getWorldPos ev (upd_engine (set_cachedCanvasRect (Some (canvasRect (host w)))) w).

(** Between [w] and [w'] the identity of the canvas, the mode, the time and
    the list of remote calls are the same. *)
Definition storageFrame (w w' : World) : Prop :=
  canvasId (engine w') = canvasId (engine w) /\
  readOnly (engine w') = readOnly (engine w) /\
  clock (host w') = clock (host w) /\
  remoteSaves (host w') = remoteSaves (host w).

(** [w'] is [w] after [handleTextEntry] has set its focus timer. *)
Definition focusScheduled (w w' : World) : Prop :=
  timers (host w') =
    timers (host w) ++ [{| timer_id := nextTimerId (host w);
                           timer_due := clock (host w) + 10;
                           timer_callback := FocusTextarea |}] /\
  saveTimeoutId (engine w') = saveTimeoutId (engine w) /\
  nextTimerId (host w') = Pos.succ (nextTimerId (host w)).

Definition isPersist (t : Timer) : bool :=
  match timer_callback t with RunPersist => true | FocusTextarea => false end.

(** The pending timers that will run [persistToStorage]. *)
Definition persistTimers (w : World) : list Timer :=
  List.filter isPersist (timers (host w)).

(** Timer handles are handed out in increasing order, and a pending
    persistence timer is the one [saveTimeoutId] names. *)
Definition TimerInv (w : World) : Prop :=
  (forall t, In t (timers (host w)) -> (timer_id t < nextTimerId (host w))%positive) /\
  (forall t, In t (persistTimers w) -> saveTimeoutId (engine w) = Some (timer_id t)).

(** The clock advances by a millisecond and the timers due by then leave
    the list. *)
Definition elapse (w : World) : World :=
  upd_host (fun h =>
    set_timers (List.filter (fun t => negb (isDue (S (clock h)) t)) (timers h))
      (set_clock (S (clock h)) h)) w.

(** What the remote store is sent when [persistToStorage] runs [k] times in
    a row. *)
Definition writes (k : nat) (e : Engine) : list (string * list Shape) :=
  if persistBlocked e then [] else repeat (canvasId e, shapes e) k.

(** A browser in which no persistence timer of an engine is pending. *)
Definition HostQuiet (h : Host) : Prop :=
  forall t, In t (timers h) ->
            (timer_id t < nextTimerId h)%positive /\ isPersist t = false.

(** Exactly one persistence timer is pending in [w], due [remaining]
    milliseconds from now. *)
Definition armed (w : World) (remaining : nat) : Prop :=
  exists id, persistTimers w =
             [{| timer_id := id; timer_due := clock (host w) + remaining;
                 timer_callback := RunPersist |}]%list.



End Vocabulary.

(* ================================================================== *)
(** ** Scenarios *)

Module Scenarios.
Import Reference.
Local Close Scope Qc_scope.

(** Local fallback storage that holds the scene [l] for canvas ["c1"]. *)
Definition stored (l : list Shape) : gmap string string :=
  {[ "procastify_canvas_c1" := write l ]}.

(** The scenes the local fallback storage of a scenario may hold. *)
#[export] Instance scenes : Externals := codec [[r1]; [r1; r2; r3]].

Abbreviation World := (World Sel).

(** A writable engine on canvas ["c1"], zoomed to 2 and panned by (30, 15). *)
Definition zoomed : World :=
  run [SetScale 2%Qc; SetTool grab; MouseDown (mouse 100 100 1) "u";
       MouseMove (mouse 130 115 1); MouseUp]
      (newEngine (Some "c1") false (browser ∅)).

(** A rectangle being drawn from (10, 10) to (110, 60), the button still
    down. *)
Definition drawing : World :=
  run [SetTool rectangle; MouseDown (mouse 10 10 1) "u"; MouseMove (mouse 110 60 1)]
      (newEngine (Some "c1") false (browser ∅)).

(** The button is released and, 100 ms later, a second shape is added. *)
Definition drawn : World := step (AddShapes [r2]) (ticks 100 (step MouseUp drawing)).

(** A read-only board that was handed [r1], as CanvasBoard.tsx does for a
    stateless presentation. *)
Definition viewer : World :=
  run [LoadElements [r1]] (newEngine (Some "c1") true (browser ∅)).

(** On that board [r1] is pressed at (50, 30) and dragged to (60, 40), the
    button still down. *)
Definition dragged : World :=
  run [MouseDown (mouse 50 30 1) "u"; MouseMove (mouse 60 40 1)] viewer.

(** A writable engine that found three shapes in the local fallback, the
    eraser selected. *)
Definition erasing : World :=
  setTool eraser (newEngine (Some "c1") false (browser (stored [r1; r2; r3]))).

(** On the read-only board [r1] has been selected by a click. *)
Definition selected : World :=
  run [MouseDown (mouse 50 30 1) "u"; MouseUp] viewer.

(** An ellipse begun at (10, 10), the button still down. *)
Definition sketch : World :=
  run [SetTool ellipse; MouseDown (mouse 10 10 1) "e"]
      (newEngine (Some "c1") false (browser ∅)).

(** The ellipse just begun. *)
Definition oval : Shape := default r1 (last (shapes (engine sketch))).

(** A writable engine that found [r1] in the local fallback; the selection
    tool is active. *)
Definition idle : World := newEngine (Some "c1") false (browser (stored [r1])).

End Scenarios.

(* ================================================================== *)
(** ** The text editor and the canvas element *)

Section TextEntry.
Context {Sel Bounds Handle : Type}.
Context {SC : SelectionController Sel Bounds Handle} {EX : Externals}.

Local Abbreviation World := (World Sel).

(** [String.prototype.trim]. *)
Variable trim : string -> string.

(** The shape the blur handler of [handleTextEntry] pushes. *)
Definition textShape (e : Engine Sel) (ta : Textarea) (value uuid : string) : Shape :=
  {| shape_id := uuid; shape_x := ta_worldX ta; shape_y := ta_worldY ta;
     shape_strokeWidth := 2; shape_strokeFill := strokeFill e;
     shape_kind := Text 0 0 value (fontSize e) (fontFamily e) "left" |}.

(** [handleBlur] of the [i]-th open textarea, whose content is [value];
    [uuid] is what [uuidv4()] returns if it is called. A textarea that is
    not open receives no event. *)
Definition handleBlur (i : nat) (value uuid : string) (w : World) : World :=
  match textareas (host w) !! i with
  | None => w
  | Some ta =>
      let w :=
        if bool_decide (trim value = EmptyString) then w
        else render (save (upd_engine (fun e =>
               set_shapes (shapes e ++ [textShape e ta value uuid]) e) w)) in
      upd_host (fun h => set_textareas (delete i (textareas h)) h) w
  end.

(** The keydown listener of the textarea: Enter without Shift blurs it. *)
Definition handleKeydown (key : string) (shiftKey : bool) (i : nat) (value uuid : string)
    (w : World) : World :=
  if bool_decide (key = "Enter") && negb shiftKey then handleBlur i value uuid w else w.

End TextEntry.





(* ================================================================== *)
(** ** More vocabulary *)

(** A shape as a drawing tool creates it: no extent yet. *)
Definition zeroExtent (s : Shape) : Prop :=
  match shape_kind s with
  | FreeDraw points _ _ _ => points = [{| pt_x := shape_x s; pt_y := shape_y s |}]%list
  | Rectangle w h _ _ _ _ _ | Diamond w h _ _ _ _ _ => w = 0 /\ h = 0
  | Ellipse rx ry _ _ _ _ => rx = 0 /\ ry = 0
  | Line tx ty _ _ | Arrow tx ty _ _ => tx = shape_x s /\ ty = shape_y s
  | Text _ _ _ _ _ _ => False
  end.

Definition isFreeDraw (s : Shape) : bool :=
  match shape_kind s with FreeDraw _ _ _ _ => true | _ => false end.

(** The sampled points of a free-draw shape. *)
Definition pointsOf (s : Shape) : list Point :=
  match shape_kind s with FreeDraw points _ _ _ => points | _ => [] end.

Definition pointOf (p : Qc * Qc) : Point := {| pt_x := fst p; pt_y := snd p |}.

(** The pointer's offset from the corner of the canvas element, in CSS
    pixels, as [getWorldPos] computes it. *)
Definition cssPos {Sel} (ev : MouseEvent) (w : World Sel) : Qc * Qc :=
  let rect := default (canvasRect (host w)) (cachedCanvasRect (engine w)) in
  (clientX ev - rect_left rect, clientY ev - rect_top rect).

(** The engine is in the middle of drawing: a drawing tool is active, the
    button is down, and [s] is the shape being drawn, last in the scene. *)
Definition Drawing {Sel} (w : World Sel) (l : list Shape) (s : Shape) : Prop :=
  isDrawing (engine w) = true /\
  notDrawingTool (activeTool (engine w)) = false /\
  shapes (engine w) = l ++ [s].

(** The engine is in a pan session whose last pointer position is that of
    [ev]. *)
Definition Panning {Sel} (w : World Sel) (ev : MouseEvent) : Prop :=
  isPanning (engine w) = true /\
  activeTool (engine w) = grab /\
  lastMouseX (engine w) = clientX ev /\
  lastMouseY (engine w) = clientY ev.

(** A sequence of pointer moves. *)
Definition moves (evs : list MouseEvent) : list Event := map MouseMove evs.

(** The topmost shape of the scene [l] that passes [hit]: the last one in
    drawing order. *)
Definition topmost (hit : Shape -> bool) (l : list Shape) : option Shape :=
  List.find hit (rev l).

(* ================================================================== *)
(** ** More scenarios *)

Module MoreScenarios.
Import Reference Scenarios.
Local Close Scope Qc_scope.

(** Space, tab, line feed, vertical tab, form feed, carriage return. *)
Definition isSpace (a : Ascii.ascii) : bool :=
  let n := Ascii.nat_of_ascii a in
  Nat.eqb n 32 || (Nat.leb 9 n && Nat.leb n 13).

Fixpoint trimStart (s : string) : string :=
  match s with
  | String a s' => if isSpace a then trimStart s' else s
  | EmptyString => EmptyString
  end.

(** [trim] on texts typed with an ASCII keyboard: leading and trailing
    blanks, tabs and line breaks go. *)
Definition asciiTrim (s : string) : string :=
  String.rev (trimStart (String.rev (trimStart s))).

(** A writable engine on an empty canvas, the rectangle tool chosen. *)
Definition ready : World :=
  run [SetTool rectangle] (newEngine (Some "c1") false (browser ∅)).

(** A writable engine with the text tool chosen. *)
Definition writing : World :=
  run [SetTool text] (newEngine (Some "c1") false (browser ∅)).

(** The same in a page that has no text editor container. *)
Definition bare : World :=
  run [SetTool text]
      (newEngine (Some "c1") false
         {| localStorage := ∅; clock := 0; timers := []; nextTimerId := 1;
            remoteSaves := []; console := []; frames := []; cursor := EmptyString;
            devicePixelRatio := 2;
            canvasRect := {| rect_left := 0; rect_top := 0;
                             rect_width := ofZ 800; rect_height := ofZ 600 |};
            textEditorContainer := false; textareas := [] |}).

(** A free-hand stroke begun at (10, 10), the button still down. *)
Definition stroke : World :=
  run [SetTool free_draw; MouseDown (mouse 10 10 1) "f"]
      (newEngine (Some "c1") false (browser ∅)).

(** The stroke just begun. *)
Definition ink : Shape := default r1 (last (shapes (engine stroke))).

(** The grab tool chosen on the engine that found three shapes in the local
    fallback. *)
Definition hand : World :=
  run [SetTool grab] (newEngine (Some "c1") false (browser (stored [r1; r2; r3]))).

(** A pan session begun at (100, 100). *)
Definition grabbing : World := step (MouseDown (mouse 100 100 1) "u") hand.

(** Two overlapping rectangles, the second drawn on top of the first. *)
Definition r4 : Shape := rect_shape "r4" 50 20 100 50.

Definition stacked : World :=
  run [LoadElements [r1; r4]] (newEngine (Some "c1") false (browser ∅)).



(** A shape is added 100 ms after the engine was constructed, while its
    fetch is still in flight. *)
Definition hasty : World := step (AddShapes [r2]) (ticks 100 idle).

End MoreScenarios.

(* ================================================================== *)
(** ** Properties *)

Lemma Qc_eqb_eq (a b : Qc) : Qc_eqb a b = true <-> a = b.
Proof.
  unfold Qc_eqb. rewrite Qeq_bool_iff. split.
  - apply Qc_is_canon.
  - intros ->. reflexivity.
Qed.

Lemma currentDpr_nonzero (h : Host) : currentDpr h <> 0.
Proof.
  unfold currentDpr. destruct (Qc_eqb (devicePixelRatio h) 0) eqn:E.
  - discriminate.
  - intros Hz. apply Qc_eqb_eq in Hz. congruence.
Qed.

Ltac branches :=
  repeat match goal with
         | |- context [if ?c then _ else _] => destruct c eqn:?
         | |- context [match ?x with _ => _ end] => destruct x eqn:?
         end.

Ltac facts := solve [repeat split; congruence].

Tactic Notation "crunch" := repeat first [progress branches | progress cbn]; auto.
Ltac crunch3 :=
  repeat first [progress branches | progress cbn]; simplify_eq;
  first [left; facts | right; left; facts | right; right; facts].

Section Properties.
Context {Sel Bounds Handle : Type}.
Context {SC : SelectionController Sel Bounds Handle} {EX : Externals}.

Local Abbreviation World := (World Sel).
Local Abbreviation Engine := (Engine Sel).

(** C1. Coordinate round-trip: whatever the pan, the zoom (not zero) and the
    device pixel ratio, a world point sent through the render transform to
    device pixels, seen at the corresponding CSS position and read back by
    [getWorldPos], is the world point itself, exactly. *)
Theorem coordinate_round_trip (w : World) (wx wy : Qc) :
  scale (engine w) <> 0 ->
  let dpr := currentDpr (host w) in
  let device := applyTransform (renderTransform dpr (engine w)) (wx, wy) in
  let rect := default (canvasRect (host w)) (cachedCanvasRect (engine w)) in
  getWorldPos (pointerAt rect (deviceToCss dpr device)) w = (wx, wy).
Proof.
  intros Hs dpr device rect.
  pose proof (currentDpr_nonzero (host w)) as Hd. fold dpr in Hd.
  unfold getWorldPos, pointerAt, deviceToCss, device, applyTransform, renderTransform.
  fold rect. cbn [clientX clientY fst snd tr_a tr_b tr_c tr_d tr_e tr_f].
  f_equal; field; auto.
Qed.





Lemma save_scheduled (w : World) : saveScheduled w (save w).
Proof.
  unfold saveScheduled, rearmed, save.
  destruct (saveTimeoutId (engine w)); cbn; auto.
Qed.

(** C4. Fallback on failure: a write that passes the guard reaches the
    remote store, and when a write that reached it is rejected, the local
    fallback storage receives the serialization of the scene as it is then,
    under the key ["procastify_canvas_" ++ canvasId]; the engine is otherwise
    untouched, the failure goes to the console, nothing is sent again and no
    timer is set. *)
Theorem fallback_on_failure :
  (forall w : World,
     persistBlocked (engine w) = false ->
     awaitingSaves (persistToStorage w) = S (awaitingSaves w)) /\
  (forall w : World,
     awaitingSaves w <> 0%nat ->
     let w' := saveSettled false w in
     localStorage (host w') !! ("procastify_canvas_" +:+ canvasId (engine w'))
       = Some (JSON_stringify (shapes (engine w'))) /\
     engine w' = engine w /\
     console (host w') = console (host w) ++ ["Failed to save shapes:"] /\
     remoteSaves (host w') = remoteSaves (host w) /\
     nothingScheduled w w').
Proof.
  split.
  - intros w Hb. unfold persistToStorage. rewrite Hb. reflexivity.
  - intros w Hn w'. subst w'. unfold saveSettled.
    destruct (awaitingSaves w) as [|n]; [congruence|]. cbn.
    split; [apply lookup_insert_eq|].
    repeat split; destruct w as [[] ? ? ?]; reflexivity.
Qed.

(** C9. Persistence guard: with an empty canvas identifier, with the
    identifier ["undefined"], or in read-only mode, the persistence write
    returns at once: the world, and so the remote store, the local fallback
    storage and the scene, is as before. *)
Theorem persistence_guard (w : World) :
  canvasId (engine w) = EmptyString \/ canvasId (engine w) = "undefined" \/
  readOnly (engine w) = true ->
  persistToStorage w = w /\ runCallback RunPersist w = w.
Proof.
  intros Hg.
  assert (persistBlocked (engine w) = true) as Hb.
  { unfold persistBlocked. destruct Hg as [-> | [-> | ->]].
    - reflexivity.
    - reflexivity.
    - apply orb_true_r. }
  cbn. unfold persistToStorage. rewrite Hb. auto.
Qed.

(** C7, as the code has it: [loadElements] replaces the scene by the given
    sequence and draws it; it sets no timer, calls no storage and leaves the
    selection controller, and with it the selected shape, as it was. *)
Theorem loadElements_postcondition (elements : list Shape) (w : World) :
  let w' := loadElements elements w in
  shapes (engine w') = elements /\
  nothingScheduled w w' /\
  nothingWritten w w' /\
  selectionController (engine w') = selectionController (engine w) /\
  (exists f, frames (host w') = frames (host w) ++ [f] /\ frame_shapes f = elements).
Proof.
  cbn. unfold nothingScheduled, nothingWritten. cbn.
  repeat split; eauto.
Qed.

Lemma half_extent (a b : Qc) : Qcabs (b - (a + (b - a) / 2)) = Qcabs (b - a) / 2.
Proof.
  replace (b - (a + (b - a) / 2)) with ((b - a) * / 2) by (field; discriminate).
  rewrite Qcabs_Qcmult. reflexivity.
Qed.

Lemma midpoint (a b : Qc) : a + (b - a) / 2 = (a + b) / 2.
Proof. field. discriminate. Qed.

(** C8. Ellipse drawing: a pointer-move at world point [(x, y)] while an
    ellipse begun at [(startX, startY)] is being drawn puts the ellipse's
    anchor at the midpoint of the drag rectangle and sets its radii to half
    the absolute drag extents, so that each radius is the distance from the
    new anchor to the pointer along its axis; nothing else of the scene
    changes. *)
Theorem ellipse_drawing (ev : MouseEvent) (w : World) (l : list Shape) (s : Shape)
    (rx ry : Qc) (bg ss : string) (rs : Qc) (fs : string) :
  isDrawing (engine w) = true ->
  notDrawingTool (activeTool (engine w)) = false ->
  shapes (engine w) = l ++ [s] ->
  shape_kind s = Ellipse rx ry bg ss rs fs ->
  let x := fst (getWorldPos ev w) in
  let y := snd (getWorldPos ev w) in
  let x0 := startX (engine w) in
  let y0 := startY (engine w) in
  exists s',
    shapes (engine (handleMouseMove ev w)) = l ++ [s'] /\
    shape_x s' = (x0 + x) / 2 /\
    shape_y s' = (y0 + y) / 2 /\
    shape_kind s' = Ellipse (Qcabs (x - x0) / 2) (Qcabs (y - y0) / 2) bg ss rs fs /\
    Qcabs (x - shape_x s') = Qcabs (x - x0) / 2 /\
    Qcabs (y - shape_y s') = Qcabs (y - y0) / 2 /\
    shape_id s' = shape_id s /\
    shape_strokeWidth s' = shape_strokeWidth s /\
    shape_strokeFill s' = shape_strokeFill s.
Proof.
  intros Hd Ht Hl Hk x y x0 y0.
  exists (dragShape x0 y0 x y s).
  split.
  - unfold handleMouseMove. cbn.
    destruct (activeTool (engine w)) eqn:Etool; try discriminate Ht;
      rewrite ?andb_false_r; cbn; rewrite Hd; cbn;
      rewrite Hl, last_snoc, length_app; cbn;
      replace (length l + 1 - 1)%nat with (length l + 0)%nat by lia;
      rewrite insert_app_r; reflexivity.
  - unfold dragShape. rewrite Hk.
    cbn [shape_x shape_y shape_kind shape_id shape_strokeWidth shape_strokeFill].
    repeat split; auto using midpoint, half_extent.
Qed.

Lemma saveScheduled_after (w w1 w' : World) :
  nothingScheduled w w1 ->
  clock (host w1) = clock (host w) ->
  saveScheduled w1 w' ->
  saveScheduled w w'.
Proof.
  unfold nothingScheduled, saveScheduled, rearmed.
  intros (Ht & Hi & Hn) Hc. rewrite Ht, Hi, Hn, Hc. auto.
Qed.

Lemma handleMouseUp_persists (w : World) :
  isPanning (engine w) = false ->
  let w' := handleMouseUp w in
  saveScheduled w w' /\
  shapes (engine w') = shapes (engine w) /\
  exists f, frames (host w') = frames (host w) ++ [f] /\
            frame_shapes f = shapes (engine w).
Proof.
  intros Hp w'. subst w'. unfold handleMouseUp. cbn. rewrite Hp.
  unfold saveScheduled, rearmed. cbn.
  destruct (saveTimeoutId (engine w)); cbn; eauto 10.
Qed.

(** With the selection tool a pointer-down concerns the selection
    controller only. *)
Lemma handleMouseDown_selection (ev : MouseEvent) (uuid : string) (w : World) :
  activeTool (engine w) = selection ->
  let w1 := handleMouseDown ev uuid w in
  shapes (engine w1) = shapes (engine w) /\
  nothingScheduled w w1 /\
  clock (host w1) = clock (host w) /\
  isPanning (engine w1) = isPanning (engine w).
Proof.
  intros Ht w1. subst w1. unfold nothingScheduled.
  unfold handleMouseDown. cbn. rewrite Ht. cbn. unfold selectAt. cbn.
  destruct (getSelectedShape (selectionController (engine w))) as [sel|];
    [destruct (getResizeHandleAtPoint _ _ _ _);
     [|destruct (isPointInShape _ _ _ sel)] |];
    cbn; auto.
Qed.

(** C10. Pointer-up always persists: a pointer-up outside a pan session
    calls [save] and draws a frame, whatever happened before it; so a click
    with the selection tool, which never touches the scene, still schedules a
    write of the unchanged scene. *)
Theorem pointer_up_always_persists :
  (forall w : World,
     isPanning (engine w) = false ->
     let w' := handleMouseUp w in
     saveScheduled w w' /\
     shapes (engine w') = shapes (engine w) /\
     exists f, frames (host w') = frames (host w) ++ [f] /\
               frame_shapes f = shapes (engine w)) /\
  (forall ev uuid (w : World),
     activeTool (engine w) = selection ->
     isPanning (engine w) = false ->
     let w' := handleMouseUp (handleMouseDown ev uuid w) in
     saveScheduled w w' /\
     shapes (engine w') = shapes (engine w)).
Proof.
  split.
  - apply handleMouseUp_persists.
  - intros ev uuid w Ht Hp w'. subst w'.
    destruct (handleMouseDown_selection ev uuid w Ht) as (Hs & Hn & Hc & Hpan).
    destruct (handleMouseUp_persists (handleMouseDown ev uuid w)) as (Hsch & Hsh & _).
    { congruence. }
    split; [|congruence].
    eapply saveScheduled_after; eauto.
Qed.




Lemma save_then_render (w : World) : saveScheduled w (render (save w)).
Proof.
  unfold saveScheduled, rearmed, save.
  destruct (saveTimeoutId (engine w)); cbn; auto.
Qed.

(** The two public mutations call [save] as well. *)
Lemma addShapes_clear_persist (elements : list Shape) (w : World) :
  saveScheduled w (addShapes elements w) /\ saveScheduled w (clear w).
Proof.
  split.
  - unfold addShapes.
    eapply saveScheduled_after; [| |apply save_scheduled];
      [unfold nothingScheduled|]; cbn; auto.
  - unfold clear.
    eapply saveScheduled_after; [| |apply save_then_render];
      [unfold nothingScheduled|]; cbn; auto.
Qed.

(** [handleMouseDown] with the eraser. *)
Lemma handleMouseDown_eraser (ev : MouseEvent) (uuid : string) (w : World) :
  activeTool (engine w) = eraser ->
  handleMouseDown ev uuid w =
  render (save (upd_engine
    (fun e =>
       set_shapes (eraseAt (fst (downPos ev w)) (snd (downPos ev w)) (engine w))
         (set_startY (snd (downPos ev w)) (set_startX (fst (downPos ev w))
           (set_lastMouseY (clientY ev) (set_lastMouseX (clientX ev)
             (set_cachedCanvasRect (Some (canvasRect (host w))) e)))))) w)).
Proof.
  intros Ht. unfold handleMouseDown.
  cbn [upd_engine engine host activeTool set_lastMouseX set_lastMouseY set_cachedCanvasRect
       set_startX set_startY].
  rewrite Ht. reflexivity.
Qed.

(** [handleMouseMove] with the eraser and the primary button held. *)
Lemma handleMouseMove_eraser (ev : MouseEvent) (w : World) :
  activeTool (engine w) = eraser ->
  buttons ev = 1%N ->
  handleMouseMove ev w =
  let l := eraseAt (fst (getWorldPos ev w)) (snd (getWorldPos ev w)) (engine w) in
  let w1 := upd_engine (fun e =>
              set_shapes l (set_lastMouseY (clientY ev) (set_lastMouseX (clientX ev) e))) w in
  if Nat.ltb (length l) (length (shapes (engine w))) then render (save w1) else w1.
Proof.
  intros Ht Hb. unfold handleMouseMove.
  cbn [upd_engine engine host activeTool isPanning set_lastMouseX set_lastMouseY].
  rewrite Ht, Hb, andb_false_r. reflexivity.
Qed.


Lemma step_frame (ev : Event) (w : World) : ev <> Tick -> storageFrame w (step ev w).
Proof.
  intros Hev. unfold storageFrame.
  destruct ev; try congruence; cbn [step].
  - unfold handleMouseDown, selectAt, handleTextEntry, newShape. crunch.
  - unfold handleMouseMove. crunch.
  - unfold handleMouseUp. crunch.
  - unfold saveSettled. crunch.
  - unfold fetchSettled. crunch.
  - crunch.
  - crunch.
  - crunch.
  - crunch.
  - crunch.
  - crunch.
  - crunch.
Qed.

(** Every step but the passing of time leaves the timers alone, calls
    [save] once, or sets the focus timer of a text editor. *)
Lemma step_schedule (ev : Event) (w : World) :
  ev <> Tick ->
  nothingScheduled w (step ev w) \/ saveScheduled w (step ev w) \/
  focusScheduled w (step ev w).
Proof.
  intros Hev. unfold nothingScheduled, saveScheduled, focusScheduled, rearmed.
  destruct ev; try congruence; cbn [step].
  - unfold handleMouseDown, selectAt, handleTextEntry, newShape. crunch3.
  - unfold handleMouseMove. crunch3.
  - unfold handleMouseUp. crunch3.
  - unfold saveSettled. crunch3.
  - unfold fetchSettled. crunch3.
  - crunch3.
  - crunch3.
  - crunch3.
  - crunch3.
  - crunch3.
  - crunch3.
  - crunch3.
Qed.

Lemma filter_none {A} (f : A -> bool) (l : list A) :
  (forall a, In a l -> f a = false) -> List.filter f l = [].
Proof.
  induction l as [|a l IH]; cbn; intros Hall; [reflexivity|].
  rewrite (Hall a) by auto. apply IH. auto.
Qed.

Lemma filter_swap {A} (f g : A -> bool) (l : list A) :
  List.filter f (List.filter g l) = List.filter g (List.filter f l).
Proof.
  induction l as [|a l IH]; cbn; [reflexivity|].
  destruct (f a) eqn:Hf, (g a) eqn:Hg; cbn; rewrite ?Hf, ?Hg, IH; reflexivity.
Qed.

Lemma inv_nothing (w w' : World) :
  nothingScheduled w w' -> TimerInv w ->
  TimerInv w' /\ persistTimers w' = persistTimers w.
Proof.
  unfold nothingScheduled, TimerInv, persistTimers.
  intros (Ht & Hi & Hn) (H1 & H2). rewrite Ht, Hi, Hn. auto.
Qed.

Lemma inv_focus (w w' : World) :
  focusScheduled w w' -> TimerInv w ->
  TimerInv w' /\ persistTimers w' = persistTimers w.
Proof.
  unfold focusScheduled, TimerInv, persistTimers.
  intros (Ht & Hi & Hn) (H1 & H2). rewrite Ht, Hi, Hn.
  rewrite List.filter_app. cbn. rewrite app_nil_r. repeat split; auto.
  intros t Hin. apply in_app_or in Hin. destruct Hin as [Hin | [<- | []]].
  - apply H1 in Hin. lia.
  - cbn. lia.
Qed.

Lemma inv_save (w w' : World) :
  saveScheduled w w' -> TimerInv w ->
  TimerInv w' /\
  persistTimers w' = [{| timer_id := nextTimerId (host w);
                         timer_due := clock (host w) + 500;
                         timer_callback := RunPersist |}]%list.
Proof.
  unfold saveScheduled, TimerInv, persistTimers, rearmed.
  intros (Ht & Hi & Hn) (H1 & H2). rewrite Ht, Hi, Hn.
  assert (List.filter isPersist
            match saveTimeoutId (engine w) with
            | Some id => List.filter (fun t => negb (Pos.eqb (timer_id t) id)) (timers (host w))
            | None => timers (host w)
            end = []) as Hold.
  { apply filter_none. intros t Hin. destruct (isPersist t) eqn:Hp; [exfalso|reflexivity].
    destruct (saveTimeoutId (engine w)) as [id|] eqn:Hid.
    - apply List.filter_In in Hin. destruct Hin as [Hin Hne].
      assert (Some id = Some (timer_id t)) as Heq.
      { apply H2. apply List.filter_In. auto. }
      inversion Heq; subst. rewrite Pos.eqb_refl in Hne. discriminate.
    - assert (None = Some (timer_id t)) as Heq; [|discriminate].
      apply H2. apply List.filter_In. auto. }
  rewrite List.filter_app, Hold. cbn. split; [split|reflexivity].
  - intros t Hin. apply in_app_or in Hin. destruct Hin as [Hin | [<- | []]].
    + assert (In t (timers (host w))) as Hin'.
      { destruct (saveTimeoutId (engine w)); [apply List.filter_In in Hin; tauto | exact Hin]. }
      apply H1 in Hin'. lia.
    + cbn. lia.
  - intros t [<- | []]. reflexivity.
Qed.

Lemma run_callbacks (due : list Timer) (w : World) :
  fold_left (fun w t => runCallback (timer_callback t) w) due w =
  Nat.iter (length (List.filter isPersist due)) persistToStorage w.
Proof.
  revert w. induction due as [|t due IH]; intros w; [reflexivity|].
  cbn [fold_left List.filter]. rewrite IH.
  assert (runCallback (timer_callback t) w =
          if isPersist t then persistToStorage w else w) as ->.
  { unfold isPersist, runCallback. destruct (timer_callback t); reflexivity. }
  destruct (isPersist t); [|reflexivity].
  cbn [length]. rewrite Nat.iter_succ_r. reflexivity.
Qed.

Lemma tick_eq (w : World) :
  tick w =
  Nat.iter (length (List.filter (isDue (S (clock (host w)))) (persistTimers w)))
    persistToStorage (elapse w).
Proof.
  unfold tick. rewrite run_callbacks. unfold persistTimers.
  rewrite filter_swap. reflexivity.
Qed.

Lemma writes_succ (k : nat) (e : Engine) : writes (S k) e = writes k e ++ writes 1 e.
Proof.
  unfold writes. destruct (persistBlocked e); [reflexivity|].
  cbn [repeat]. apply List.repeat_cons.
Qed.

Lemma persist_once (w : World) :
  let w' := persistToStorage w in
  engine w' = engine w /\
  timers (host w') = timers (host w) /\
  nextTimerId (host w') = nextTimerId (host w) /\
  clock (host w') = clock (host w) /\
  localStorage (host w') = localStorage (host w) /\
  awaitingFetch w' = awaitingFetch w /\
  remoteSaves (host w') = remoteSaves (host w) ++ writes 1 (engine w) /\
  awaitingSaves w' = (awaitingSaves w + length (writes 1 (engine w)))%nat.
Proof.
  unfold persistToStorage, writes. destruct (persistBlocked (engine w)); cbn.
  - rewrite app_nil_r, Nat.add_0_r. repeat split; reflexivity.
  - repeat split; auto; lia.
Qed.

Lemma persist_iter (k : nat) (w : World) :
  let w' := Nat.iter k persistToStorage w in
  engine w' = engine w /\
  timers (host w') = timers (host w) /\
  nextTimerId (host w') = nextTimerId (host w) /\
  clock (host w') = clock (host w) /\
  localStorage (host w') = localStorage (host w) /\
  awaitingFetch w' = awaitingFetch w /\
  remoteSaves (host w') = remoteSaves (host w) ++ writes k (engine w) /\
  awaitingSaves w' = (awaitingSaves w + length (writes k (engine w)))%nat.
Proof.
  induction k as [|k IH]; cbv zeta.
  - assert (writes 0 (engine w) = []) as ->.
    { unfold writes. destruct (persistBlocked (engine w)); reflexivity. }
    cbn. rewrite app_nil_r, Nat.add_0_r. repeat split; reflexivity.
  - cbv zeta in IH. set (w1 := Nat.iter k persistToStorage w) in *.
    change (Nat.iter (S k) persistToStorage w) with (persistToStorage w1).
    destruct IH as (He & Ht & Hn & Hc & Hl & Hf & Hr & Ha).
    destruct (persist_once w1) as (He' & Ht' & Hn' & Hc' & Hl' & Hf' & Hr' & Ha').
    rewrite He', Ht', Hn', Hc', Hl', Hf', Hr', Ha', He, Ht, Hn, Hc, Hl, Hf, Hr, Ha.
    rewrite (writes_succ k), length_app, <- app_assoc.
    repeat split; auto; lia.
Qed.

(** One millisecond, in full. *)
Lemma tick_spec (w : World) :
  let due := List.filter (isDue (S (clock (host w)))) (persistTimers w) in
  engine (tick w) = engine w /\
  clock (host (tick w)) = S (clock (host w)) /\
  nextTimerId (host (tick w)) = nextTimerId (host w) /\
  timers (host (tick w)) =
    List.filter (fun t => negb (isDue (S (clock (host w))) t)) (timers (host w)) /\
  localStorage (host (tick w)) = localStorage (host w) /\
  awaitingFetch (tick w) = awaitingFetch w /\
  remoteSaves (host (tick w)) = remoteSaves (host w) ++ writes (length due) (engine w) /\
  awaitingSaves (tick w) = (awaitingSaves w + length (writes (length due) (engine w)))%nat.
Proof.
  intros due. rewrite tick_eq. fold due.
  destruct (persist_iter (length due) (elapse w)) as (He & Ht & Hn & Hc & Hl & Hf & Hr & Ha).
  rewrite He, Ht, Hn, Hc, Hl, Hf, Hr, Ha. repeat split; reflexivity.
Qed.

Lemma persistTimers_tick (w : World) :
  persistTimers (tick w) =
  List.filter (fun t => negb (isDue (S (clock (host w))) t)) (persistTimers w).
Proof.
  unfold persistTimers. destruct (tick_spec w) as (_ & _ & _ & Ht & _).
  rewrite Ht. apply filter_swap.
Qed.

Lemma inv_tick (w : World) : TimerInv w -> TimerInv (tick w).
Proof.
  intros (H1 & H2). unfold TimerInv. rewrite persistTimers_tick.
  destruct (tick_spec w) as (He & _ & Hn & Ht & _). rewrite He, Hn, Ht.
  split; intros t Hin; apply List.filter_In in Hin; destruct Hin; auto.
Qed.

Lemma inv_step (ev : Event) (w : World) : TimerInv w -> TimerInv (step ev w).
Proof.
  intros Hinv.
  assert (ev = Tick \/ ev <> Tick) as [-> | Hev]
    by (destruct ev; first [left; reflexivity | right; discriminate]).
  - apply inv_tick, Hinv.
  - destruct (step_schedule ev w Hev) as [H | [H | H]].
    + apply (inv_nothing _ _ H Hinv).
    + apply (inv_save _ _ H Hinv).
    + apply (inv_focus _ _ H Hinv).
Qed.


Lemma inv_new (id : option string) (ro : bool) (h : Host) :
  HostQuiet h -> TimerInv (newEngine id ro h).
Proof.
  intros Hq.
  assert (timers (host (newEngine id ro h)) = timers h /\
          nextTimerId (host (newEngine id ro h)) = nextTimerId h) as (Ht & Hn).
  { unfold newEngine, init. crunch. }
  unfold TimerInv, persistTimers. rewrite Ht, Hn. split.
  - intros t Hin. apply Hq, Hin.
  - intros t Hin. apply List.filter_In in Hin. destruct Hin as (Hin & Hp).
    apply Hq in Hin. destruct Hin. congruence.
Qed.

Lemma tick_armed_wait (w : World) (d : nat) :
  armed w (S (S d)) ->
  armed (tick w) (S d) /\
  remoteSaves (host (tick w)) = remoteSaves (host w) /\
  engine (tick w) = engine w.
Proof.
  intros (id & Hp).
  destruct (tick_spec w) as (He & Hc & _ & _ & _ & _ & Hr & _).
  assert (isDue (S (clock (host w)))
            {| timer_id := id; timer_due := clock (host w) + S (S d);
               timer_callback := RunPersist |} = false) as Hdue.
  { unfold isDue. cbn [timer_due]. apply Nat.leb_gt. lia. }
  split; [|split].
  - exists id. rewrite persistTimers_tick, Hp. cbn [List.filter]. rewrite Hdue. cbn [negb].
    rewrite Hc. do 2 f_equal. lia.
  - rewrite Hr, Hp. cbn [List.filter]. rewrite Hdue.
    unfold writes. destruct (persistBlocked (engine w)); apply app_nil_r.
  - exact He.
Qed.

Lemma tick_armed_fire (w : World) :
  armed w 1 ->
  persistTimers (tick w) = [] /\
  remoteSaves (host (tick w)) = remoteSaves (host w) ++ writes 1 (engine w) /\
  engine (tick w) = engine w.
Proof.
  intros (id & Hp).
  destruct (tick_spec w) as (He & Hc & _ & _ & _ & _ & Hr & _).
  assert (isDue (S (clock (host w)))
            {| timer_id := id; timer_due := clock (host w) + 1;
               timer_callback := RunPersist |} = true) as Hdue.
  { unfold isDue. cbn [timer_due]. apply Nat.leb_le. lia. }
  split; [|split].
  - rewrite persistTimers_tick, Hp. cbn [List.filter]. rewrite Hdue. reflexivity.
  - rewrite Hr, Hp. cbn [List.filter]. rewrite Hdue. reflexivity.
  - exact He.
Qed.

Lemma tick_idle (w : World) :
  persistTimers w = [] ->
  persistTimers (tick w) = [] /\
  remoteSaves (host (tick w)) = remoteSaves (host w).
Proof.
  intros Hp. destruct (tick_spec w) as (_ & _ & _ & _ & _ & _ & Hr & _).
  rewrite persistTimers_tick, Hr, Hp. cbn [List.filter length].
  split; [reflexivity|].
  unfold writes. destruct (persistBlocked (engine w)); apply app_nil_r.
Qed.

Lemma ticks_add (a b : nat) (w : World) : ticks (a + b) w = ticks b (ticks a w).
Proof. revert w. induction a as [|a IH]; intros w; cbn; auto. Qed.

Lemma ticks_armed (k d : nat) (w : World) :
  armed w (k + S d) ->
  armed (ticks k w) (S d) /\
  remoteSaves (host (ticks k w)) = remoteSaves (host w) /\
  engine (ticks k w) = engine w.
Proof.
  revert w. induction k as [|k IH]; intros w Ha; [cbn; auto|].
  cbn [ticks]. replace (S k + S d)%nat with (S (S (k + d))) in Ha by lia.
  destruct (tick_armed_wait w (k + d) Ha) as (Ha' & Hr & He).
  replace (S (k + d)) with (k + S d)%nat in Ha' by lia.
  destruct (IH (tick w) Ha') as (Ha'' & Hr' & He').
  rewrite Hr', He', Hr, He. auto.
Qed.

Lemma ticks_idle (m : nat) (w : World) :
  persistTimers w = [] ->
  remoteSaves (host (ticks m w)) = remoteSaves (host w).
Proof.
  revert w. induction m as [|m IH]; intros w Hp; [reflexivity|].
  cbn [ticks]. destruct (tick_idle w Hp) as (Hp' & Hr).
  rewrite (IH (tick w) Hp'). exact Hr.
Qed.






End Properties.

(* ================================================================== *)
(** ** The properties at work *)

Module Examples.
Import Reference Scenarios.
Local Close Scope Qc_scope.

(** No timer is pending in a browser in which nothing has happened. *)
Lemma quiet_browser (m : gmap string string) : HostQuiet (browser m).
Proof. intros t []. Qed.

(** C1 at zoom 2, pan (30, 15) and device pixel ratio 2: the world point
    (7, 3) is drawn at device pixel (88, 42) and read back as (7, 3). *)
Lemma coordinate_round_trip_witness :
  scale (engine zoomed) <> 0%Qc /\
  let dpr := currentDpr (host zoomed) in
  let device := applyTransform (renderTransform dpr (engine zoomed)) (ofZ 7, ofZ 3) in
  let rect := default (canvasRect (host zoomed)) (cachedCanvasRect (engine zoomed)) in
  device = (ofZ 88, ofZ 42) /\
  getWorldPos (pointerAt rect (deviceToCss dpr device)) zoomed = (ofZ 7, ofZ 3).
Proof.
  assert (scale (engine zoomed) <> 0%Qc) as Hs by (vm_compute; discriminate).
  split; [exact Hs|]. split.
  - vm_compute. f_equal; apply Qc_is_canon; reflexivity.
  - exact (coordinate_round_trip zoomed (ofZ 7) (ofZ 3) Hs).
Defined.





(** C4: the write of [drawn] reaches the remote store and is rejected;
    the local fallback, empty until then, receives the scene. *)
Lemma fallback_on_failure_witness :
  let w := ticks 500 drawn in
  awaitingSaves w <> 0%nat /\
  let w' := saveSettled false w in
  localStorage (host w) !! "procastify_canvas_c1" = None /\
  localStorage (host w') !! "procastify_canvas_c1" = Some "[u,r2]" /\
  shapes (engine w') = shapes (engine w).
Proof.
  cbv zeta.
  assert (awaitingSaves (ticks 500 drawn) <> 0%nat) as Hn by (vm_compute; discriminate).
  destruct (proj2 fallback_on_failure (ticks 500 drawn) Hn) as (Hl & He & _).
  split; [exact Hn|]. split; [vm_compute; reflexivity|]. split.
  - change (localStorage (host (saveSettled false (ticks 500 drawn)))
              !! ("procastify_canvas_" +:+ canvasId (engine (saveSettled false (ticks 500 drawn))))
            = Some "[u,r2]").
    rewrite Hl. vm_compute. reflexivity.
  - rewrite He. reflexivity.
Defined.




(** C7 as stated fails when the scene of [selected] is replaced by [r2]
    alone: [r1] is still the selected shape, and the frame [loadElements]
    draws has the selection box around it. *)
Lemma loadElements_counterexample :
  let w := loadElements [r2] selected in
  getSelectedShape (selectionController (engine selected)) = Some r1 /\
  shapes (engine w) = [r2] /\
  getSelectedShape (selectionController (engine w)) = Some r1 /\
  getSelectedShape (selectionController (engine w)) <> None /\
  frame_selectionBox <$> last (frames (host w)) = Some (Some r1).
Proof.
  cbv zeta. split; [|split; [|split; [|split]]]; try (vm_compute; reflexivity).
  vm_compute. discriminate.
Qed.

(** C8: the ellipse begun at (10, 10) and dragged to (110, 60) is centred
    at (60, 35) with radii 50 and 25. *)
Lemma ellipse_drawing_witness :
  exists s',
    shapes (engine (handleMouseMove (mouse 110 60 1) sketch)) = [s'] /\
    shape_x s' = ofZ 60 /\ shape_y s' = ofZ 35 /\
    shape_kind s' = Ellipse (ofZ 50) (ofZ 25) "transparent" "solid" 0%Qc "solid".
Proof.
  assert (isDrawing (engine sketch) = true) as Hd by (vm_compute; reflexivity).
  assert (notDrawingTool (activeTool (engine sketch)) = false) as Ht
    by (vm_compute; reflexivity).
  assert (shapes (engine sketch) = [] ++ [oval]) as Hl by (vm_compute; reflexivity).
  assert (shape_kind oval = Ellipse 0%Qc 0%Qc "transparent" "solid" 0%Qc "solid") as Hk
    by (vm_compute; reflexivity).
  destruct (ellipse_drawing (mouse 110 60 1) sketch [] oval _ _ _ _ _ _ Hd Ht Hl Hk)
    as (s' & Hs & Hx & Hy & Hk' & _).
  exists s'. split; [exact Hs|]. rewrite Hx, Hy, Hk'.
  split; [|split]; [| |f_equal]; apply Qc_is_canon; vm_compute; reflexivity.
Defined.

(** C9 on the read-only board, and on an engine whose identifier is the
    text ["undefined"]. *)
Lemma persistence_guard_witness :
  readOnly (engine dragged) = true /\
  persistToStorage dragged = dragged /\
  let w := addShapes [r1] (newEngine (Some "undefined") false (browser ∅)) in
  canvasId (engine w) = "undefined" /\ persistToStorage w = w.
Proof.
  assert (readOnly (engine dragged) = true) as Hro by (vm_compute; reflexivity).
  split; [exact Hro|].
  split; [exact (proj1 (persistence_guard dragged (or_intror (or_intror Hro))))|].
  cbv zeta.
  set (w := addShapes [r1] (newEngine (Some "undefined") false (browser ∅))).
  assert (canvasId (engine w) = "undefined") as Hid by (vm_compute; reflexivity).
  split; [exact Hid|].
  exact (proj1 (persistence_guard w (or_intror (or_introl Hid)))).
Defined.

(** C10: a click at (500, 500), on empty canvas, with the selection tool
    schedules a write, and 500 ms later the unchanged scene is written. *)
Lemma pointer_up_always_persists_witness :
  let w' := handleMouseUp (handleMouseDown (mouse 500 500 1) "u" idle) in
  activeTool (engine idle) = selection /\
  isPanning (engine idle) = false /\
  saveScheduled idle w' /\
  shapes (engine w') = shapes (engine idle) /\
  remoteSaves (host (ticks 500 w')) = [("c1", [r1])].
Proof.
  cbv zeta.
  assert (activeTool (engine idle) = selection) as Ht by (vm_compute; reflexivity).
  assert (isPanning (engine idle) = false) as Hp by (vm_compute; reflexivity).
  destruct (proj2 (pointer_up_always_persists (Sel:=Sel)) (mouse 500 500 1) "u" idle Ht Hp)
    as (Hsch & Hs).
  split; [exact Ht|]. split; [exact Hp|]. split; [exact Hsch|]. split; [exact Hs|].
  vm_compute. reflexivity.
Defined.

End Examples.

(* ================================================================== *)
(** ** More properties: drawing, panning, tools *)

Section MoreProperties.
Context {Sel Bounds Handle : Type}.
Context {SC : SelectionController Sel Bounds Handle} {EX : Externals}.

Local Abbreviation World := (World Sel).
Local Abbreviation Engine := (Engine Sel).

(** What [newShape] makes with a drawing tool. *)
Lemma newShape_drawing (e : Engine) (uuid : string) (x y : Qc) :
  notDrawingTool (activeTool e) = false ->
  exists s,
    newShape e uuid x y = Some s /\
    shape_id s = uuid /\
    (shape_x s, shape_y s) = (x, y) /\
    shape_strokeWidth s = strokeWidth e /\
    shape_strokeFill s = strokeFill e /\
    zeroExtent s.
Proof.
  intros Ht. unfold newShape, zeroExtent.
  destruct (activeTool e); try discriminate Ht; eexists; (split; [reflexivity|]); cbn; auto 10.
Qed.

(** [handleMouseDown] with a drawing tool. *)
Lemma handleMouseDown_drawing (ev : MouseEvent) (uuid : string) (w : World) (s : Shape) :
  notDrawingTool (activeTool (engine w)) = false ->
  newShape (engine w) uuid (fst (downPos ev w)) (snd (downPos ev w)) = Some s ->
  handleMouseDown ev uuid w =
  upd_engine (fun e =>
    set_shapes (shapes (engine w) ++ [s])
      (set_isDrawing true
        (set_startY (snd (downPos ev w)) (set_startX (fst (downPos ev w))
          (set_lastMouseY (clientY ev) (set_lastMouseX (clientX ev)
            (set_cachedCanvasRect (Some (canvasRect (host w))) e))))))) w.
Proof.
  intros Ht Hs. unfold handleMouseDown.
  cbn [upd_engine engine host activeTool set_lastMouseX set_lastMouseY set_cachedCanvasRect
       set_startX set_startY set_isDrawing].
  change (getWorldPos ev _) with (downPos ev w).
  assert (forall e1 : Engine,
            activeTool e1 = activeTool (engine w) ->
            strokeWidth e1 = strokeWidth (engine w) ->
            strokeFill e1 = strokeFill (engine w) ->
            bgFill e1 = bgFill (engine w) ->
            strokeStyle e1 = strokeStyle (engine w) ->
            roughStyle e1 = roughStyle (engine w) ->
            fillStyle e1 = fillStyle (engine w) ->
            forall a b, newShape e1 uuid a b = newShape (engine w) uuid a b) as Hnew.
  { intros e1 H1 H2 H3 H4 H5 H6 H7 a b. unfold newShape.
    rewrite H1, H2, H3, H4, H5, H6, H7. reflexivity. }
  destruct (downPos ev w) as [x y] eqn:Hp. cbn [fst snd] in *.
  destruct (activeTool (engine w)) eqn:Htool; try discriminate Ht; cbn [same_tool];
    rewrite Hnew by (cbn; congruence); rewrite Hs; reflexivity.
Qed.

(** X1. A click with a drawing tool, the pointer pressed and released
    without moving: the pointer-down appends one shape of no extent, with the
    given identifier, anchored at the pointer's world position, and neither
    draws nor schedules anything; the pointer-up keeps the shape, ends the
    drawing and schedules the write. *)
Theorem click_leaves_zero_extent_shape (ev : MouseEvent) (uuid : string) (w : World) :
  notDrawingTool (activeTool (engine w)) = false ->
  isPanning (engine w) = false ->
  let w1 := handleMouseDown ev uuid w in
  let w2 := handleMouseUp w1 in
  exists s,
    shapes (engine w1) = shapes (engine w) ++ [s] /\
    shapes (engine w2) = shapes (engine w) ++ [s] /\
    shape_id s = uuid /\
    (shape_x s, shape_y s) = downPos ev w /\
    zeroExtent s /\
    isDrawing (engine w1) = true /\
    nothingScheduled w w1 /\
    frames (host w1) = frames (host w) /\
    isDrawing (engine w2) = false /\
    saveScheduled w w2.
Proof.
  intros Ht Hp w1 w2.
  destruct (newShape_drawing (engine w) uuid (fst (downPos ev w)) (snd (downPos ev w)) Ht)
    as (s & Hnew & Hid & Hpos & _ & _ & Hz).
  pose proof (handleMouseDown_drawing ev uuid w s Ht Hnew) as Heq.
  rewrite <- surjective_pairing in Hpos.
  assert (shapes (engine w1) = shapes (engine w) ++ [s] /\
          isDrawing (engine w1) = true /\ isPanning (engine w1) = false /\
          nothingScheduled w w1 /\ clock (host w1) = clock (host w) /\
          frames (host w1) = frames (host w)) as (Hs1 & Hd1 & Hp1 & Hn1 & Hc1 & Hf1).
  { subst w1. rewrite Heq. unfold nothingScheduled. cbn. auto 10. }
  destruct (handleMouseUp_persists w1 Hp1) as (Hsch & Hs2 & _).
  fold w2 in Hsch, Hs2.
  assert (isDrawing (engine w2) = false) as Hd2.
  { subst w2. unfold handleMouseUp. cbn. rewrite Hp1. reflexivity. }
  assert (saveScheduled w w2) as Hsch' by (eapply saveScheduled_after; eauto).
  exists s. split; [exact Hs1|]. split; [congruence|]. auto 12.
Qed.

(** [handleMouseMove] while a shape is being drawn. *)
Lemma handleMouseMove_drawing (ev : MouseEvent) (w : World) (l : list Shape) (s : Shape) :
  Drawing w l s ->
  handleMouseMove ev w =
  render (upd_engine (fun e =>
    set_shapes (l ++ [dragShape (startX (engine w)) (startY (engine w))
                        (fst (getWorldPos ev w)) (snd (getWorldPos ev w)) s])
      (set_lastMouseY (clientY ev) (set_lastMouseX (clientX ev) e))) w).
Proof.
  intros (Hd & Ht & Hl). unfold handleMouseMove. cbn.
  destruct (activeTool (engine w)) eqn:Etool; try discriminate Ht;
    rewrite ?andb_false_r; cbn; rewrite Hd; cbn;
    rewrite Hl, last_snoc, length_app; cbn;
    replace (length l + 1 - 1)%nat with (length l + 0)%nat by lia;
    rewrite insert_app_r; reflexivity.
Qed.

Lemma move_keeps_drawing (ev : MouseEvent) (w : World) (l : list Shape) (s : Shape) :
  Drawing w l s ->
  let w' := handleMouseMove ev w in
  let s' := dragShape (startX (engine w)) (startY (engine w))
              (fst (getWorldPos ev w)) (snd (getWorldPos ev w)) s in
  Drawing w' l s' /\
  startX (engine w') = startX (engine w) /\
  startY (engine w') = startY (engine w) /\
  (forall ev', getWorldPos ev' w' = getWorldPos ev' w) /\
  nothingScheduled w w'.
Proof.
  intros Hdr w' s'. subst w'. rewrite (handleMouseMove_drawing ev w l s Hdr).
  destruct Hdr as (Hd & Ht & Hl). unfold Drawing, nothingScheduled. cbn. auto 10.
Qed.

Lemma dragShape_again (x0 y0 a b c d : Qc) (s : Shape) :
  isFreeDraw s = false ->
  dragShape x0 y0 a b (dragShape x0 y0 c d s) = dragShape x0 y0 a b s /\
  isFreeDraw (dragShape x0 y0 c d s) = false.
Proof.
  unfold isFreeDraw, dragShape. destruct s as [i x y sw sf k]. cbn.
  destruct k; intros Hf; try discriminate Hf; cbn; auto.
Qed.

(** X2. While a rectangle, diamond, ellipse, line or arrow is being drawn,
    the shape depends on the latest pointer position only: after any
    sequence of pointer moves it is what the last move alone would have made
    of the shape as it was begun, the rest of the scene is untouched and no
    write is scheduled. *)
Theorem drag_follows_pointer (w : World) (l : list Shape) (s : Shape)
    (evs : list MouseEvent) (ev : MouseEvent) :
  Drawing w l s ->
  isFreeDraw s = false ->
  let w' := run (moves (evs ++ [ev])) w in
  shapes (engine w') = shapes (engine (handleMouseMove ev w)) /\
  shapes (engine w') =
    l ++ [dragShape (startX (engine w)) (startY (engine w))
            (fst (getWorldPos ev w)) (snd (getWorldPos ev w)) s] /\
  nothingScheduled w w'.
Proof.
  intros Hdr Hf. cbv zeta.
  rewrite (handleMouseMove_drawing ev w l s Hdr). cbn [shapes engine render upd_engine upd_host set_shapes].
  revert w s Hdr Hf. induction evs as [|ev1 evs IH]; intros w s Hdr Hf.
  - cbn [app moves map run fold_left step].
    rewrite (handleMouseMove_drawing ev w l s Hdr).
    destruct Hdr as (Hd & Ht & Hl). unfold nothingScheduled. cbn. auto.
  - cbn [app moves map run fold_left step].
    destruct (move_keeps_drawing ev1 w l s Hdr) as (Hdr' & Hx & Hy & Hpos & Hn).
    destruct (dragShape_again (startX (engine w)) (startY (engine w))
                (fst (getWorldPos ev w)) (snd (getWorldPos ev w))
                (fst (getWorldPos ev1 w)) (snd (getWorldPos ev1 w)) s Hf) as (Hag & Hf').
    specialize (IH _ _ Hdr' Hf'). cbv zeta in IH.
    rewrite Hx, Hy, Hpos, Hag in IH.
    unfold moves, run in *. destruct IH as (IH1 & IH2 & IH3).
    split; [exact IH1|]. split; [exact IH1|].
    unfold nothingScheduled in *. destruct Hn as (? & ? & ?), IH3 as (? & ? & ?).
    repeat split; congruence.
Qed.

(** X3. While a free-hand stroke is being drawn, every pointer move adds
    its world position to the stroke, in order and without dropping any; the
    anchor, the identifier and the rest of the scene stay as they are. *)
Theorem free_draw_accumulates (w : World) (l : list Shape) (s : Shape)
    (evs : list MouseEvent) :
  Drawing w l s ->
  isFreeDraw s = true ->
  exists s',
    shapes (engine (run (moves evs) w)) = l ++ [s'] /\
    pointsOf s' = pointsOf s ++ map (fun ev => pointOf (getWorldPos ev w)) evs /\
    shape_id s' = shape_id s /\
    (shape_x s', shape_y s') = (shape_x s, shape_y s) /\
    isFreeDraw s' = true.
Proof.
  revert w s. induction evs as [|ev evs IH]; intros w s Hdr Hf.
  - exists s. destruct Hdr as (_ & _ & Hl). cbn. rewrite app_nil_r. auto.
  - cbn [moves map run fold_left step].
    destruct (move_keeps_drawing ev w l s Hdr) as (Hdr' & _ & _ & Hpos & _).
    set (s1 := dragShape _ _ _ _ s) in *.
    assert (pointsOf s1 = pointsOf s ++ [pointOf (getWorldPos ev w)] /\
            shape_id s1 = shape_id s /\ shape_x s1 = shape_x s /\
            shape_y s1 = shape_y s /\ isFreeDraw s1 = true) as (Hp1 & Hi1 & Hx1 & Hy1 & Hf1).
    { subst s1. unfold isFreeDraw, pointsOf, dragShape in *. destruct s as [i x y sw sf k].
      cbn in *. destruct k; try discriminate Hf. cbn. auto. }
    destruct (IH _ _ Hdr' Hf1) as (s' & Hs & Hp & Hi & Hxy & Hf').
    exists s'. split; [exact Hs|]. split; [|split; [congruence|split; [congruence|exact Hf']]].
    rewrite Hp, Hp1, <- app_assoc. cbn [app map]. do 2 f_equal.
    apply map_ext. intros ev'. rewrite Hpos. reflexivity.
Qed.

(** [handleMouseMove] in a pan session. *)
Lemma handleMouseMove_panning (ev : MouseEvent) (w : World) :
  isPanning (engine w) = true ->
  activeTool (engine w) = grab ->
  handleMouseMove ev w =
  render (upd_engine (fun e =>
    set_panY (panY e + (clientY ev - lastMouseY (engine w)))
      (set_panX (panX e + (clientX ev - lastMouseX (engine w)))
        (set_lastMouseY (clientY ev) (set_lastMouseX (clientX ev) e)))) w).
Proof.
  intros Hp Ht. unfold handleMouseMove.
  cbn [upd_engine engine host activeTool isPanning set_lastMouseX set_lastMouseY].
  rewrite Hp, Ht. reflexivity.
Qed.

Lemma last_cons {A} (a d : A) (l : list A) : List.last (a :: l) d = List.last l a.
Proof.
  revert a d. induction l as [|b l IH]; intros a d; [reflexivity|].
  change (List.last (a :: b :: l) d) with (List.last (b :: l) d).
  rewrite (IH b d), (IH b a). reflexivity.
Qed.

Lemma run_app (evs1 evs2 : list Event) (w : World) :
  run (evs1 ++ evs2) w = run evs2 (run evs1 w).
Proof. unfold run. apply fold_left_app. Qed.

Lemma pan_moves (evs : list MouseEvent) (w : World) (ev : MouseEvent) :
  Panning w ev ->
  let w' := run (moves evs) w in
  Panning w' (List.last evs ev) /\
  panX (engine w') = panX (engine w) + (clientX (List.last evs ev) - clientX ev) /\
  panY (engine w') = panY (engine w) + (clientY (List.last evs ev) - clientY ev) /\
  shapes (engine w') = shapes (engine w) /\
  scale (engine w') = scale (engine w) /\
  nothingScheduled w w' /\
  nothingWritten w w'.
Proof.
  revert w ev. induction evs as [|ev1 evs IH]; intros w ev Hpan.
  - cbn. unfold nothingScheduled, nothingWritten.
    repeat split; try apply Hpan; try reflexivity; ring.
  - cbn [moves map run fold_left step]. rewrite last_cons.
    destruct Hpan as (Hp & Ht & Hx & Hy).
    assert (Panning (handleMouseMove ev1 w) ev1 /\
            panX (engine (handleMouseMove ev1 w)) = panX (engine w) + (clientX ev1 - clientX ev) /\
            panY (engine (handleMouseMove ev1 w)) = panY (engine w) + (clientY ev1 - clientY ev) /\
            shapes (engine (handleMouseMove ev1 w)) = shapes (engine w) /\
            scale (engine (handleMouseMove ev1 w)) = scale (engine w) /\
            nothingScheduled w (handleMouseMove ev1 w) /\
            nothingWritten w (handleMouseMove ev1 w))
      as (Hpan1 & Hx1 & Hy1 & Hs1 & Hz1 & Hn1 & Hw1).
    { rewrite (handleMouseMove_panning ev1 w Hp Ht).
      unfold Panning, nothingScheduled, nothingWritten. cbn. rewrite Hx, Hy. auto 12. }
    destruct (IH _ _ Hpan1) as (Hpan' & Hx' & Hy' & Hs' & Hz' & Hn' & Hw').
    unfold moves, run in *.
    split; [exact Hpan'|]. split; [rewrite Hx', Hx1; ring|]. split; [rewrite Hy', Hy1; ring|].
    split; [congruence|]. split; [congruence|].
    unfold nothingScheduled, nothingWritten in *.
    destruct Hn1 as (? & ? & ?), Hn' as (? & ? & ?), Hw1 as (? & ? & ?), Hw' as (? & ? & ?).
    repeat split; congruence.
Qed.

(** X4. A pan session, from the pointer-down with the grab tool through any
    pointer moves to the pointer-up, moves the view by the displacement of
    the pointer between its first and its last position, whatever the path
    and whatever the zoom; it changes no shape, sets no timer and writes
    nothing. *)
Theorem pan_session (ev0 : MouseEvent) (uuid : string) (evs : list MouseEvent) (w : World) :
  activeTool (engine w) = grab ->
  let w' := run (MouseDown ev0 uuid :: moves evs ++ [MouseUp]) w in
  panX (engine w') = panX (engine w) + (clientX (List.last evs ev0) - clientX ev0) /\
  panY (engine w') = panY (engine w) + (clientY (List.last evs ev0) - clientY ev0) /\
  shapes (engine w') = shapes (engine w) /\
  scale (engine w') = scale (engine w) /\
  isPanning (engine w') = false /\
  nothingScheduled w w' /\
  nothingWritten w w'.
Proof.
  intros Ht. cbv zeta.
  change (MouseDown ev0 uuid :: moves evs ++ [MouseUp])
    with ([MouseDown ev0 uuid] ++ (moves evs ++ [MouseUp])).
  rewrite !run_app.
  set (w1 := run [MouseDown ev0 uuid] w).
  assert (Panning w1 ev0 /\ panX (engine w1) = panX (engine w) /\
          panY (engine w1) = panY (engine w) /\ shapes (engine w1) = shapes (engine w) /\
          scale (engine w1) = scale (engine w) /\ nothingScheduled w w1 /\
          nothingWritten w w1) as (Hpan1 & Hx1 & Hy1 & Hs1 & Hz1 & Hn1 & Hw1).
  { subst w1. cbn [run fold_left step]. unfold handleMouseDown.
    cbn [upd_engine engine host activeTool set_lastMouseX set_lastMouseY set_cachedCanvasRect].
    rewrite Ht. unfold Panning, nothingScheduled, nothingWritten. cbn. auto 12. }
  destruct (pan_moves evs w1 ev0 Hpan1) as (Hpan2 & Hx2 & Hy2 & Hs2 & Hz2 & Hn2 & Hw2).
  set (w2 := run (moves evs) w1) in *.
  destruct Hpan2 as (Hp2 & _).
  cbn [run fold_left step]. unfold handleMouseUp.
  cbn [upd_engine engine isPanning set_cachedCanvasRect]. rewrite Hp2.
  unfold nothingScheduled, nothingWritten in *.
  destruct Hn1 as (? & ? & ?), Hn2 as (? & ? & ?), Hw1 as (? & ? & ?), Hw2 as (? & ? & ?).
  cbn. repeat split; congruence.
Qed.

(** X5. While panning, the world point under the pointer stays under the
    pointer: after a pointer move the new pointer position reads back the
    world point the previous position read before. *)
Theorem grabbed_point_stays_under_pointer (ev1 ev2 : MouseEvent) (w : World) :
  Panning w ev1 ->
  getWorldPos ev2 (handleMouseMove ev2 w) = getWorldPos ev1 w.
Proof.
  intros (Hp & Ht & Hx & Hy). rewrite (handleMouseMove_panning ev2 w Hp Ht).
  unfold getWorldPos. cbn. rewrite Hx, Hy. f_equal; f_equal; ring.
Qed.

(** [handleMouseMove] when nothing is in progress and the tool is neither
    the selection tool nor the eraser. *)
Lemma handleMouseMove_idle (ev : MouseEvent) (w : World) :
  isDrawing (engine w) = false ->
  isPanning (engine w) = false ->
  same_tool (activeTool (engine w)) selection = false ->
  same_tool (activeTool (engine w)) eraser = false ->
  handleMouseMove ev w =
  upd_engine (fun e => set_lastMouseY (clientY ev) (set_lastMouseX (clientX ev) e)) w.
Proof.
  intros Hd Hp Hs He. unfold handleMouseMove.
  cbn [upd_engine engine host activeTool isPanning isDrawing set_lastMouseX set_lastMouseY].
  rewrite Hd, Hp, Hs, He. reflexivity.
Qed.

(** X6. Switching to a drawing tool, to the grab tool or to the text tool
    cancels what was in progress: the controller is told to clear the
    selection, and the pointer moves that follow, however many, change
    neither the scene nor the view and set no timer, until the next
    pointer-down. *)
Theorem setTool_cancels (tool : ToolType) (evs : list MouseEvent) (w : World) :
  same_tool tool selection = false ->
  same_tool tool eraser = false ->
  let w' := run (moves evs) (setTool tool w) in
  shapes (engine w') = shapes (engine w) /\
  (panX (engine w'), panY (engine w'), scale (engine w')) =
    (panX (engine w), panY (engine w), scale (engine w)) /\
  selectionController (engine w') = setSelectedShape None (selectionController (engine w)) /\
  isDrawing (engine w') = false /\ isPanning (engine w') = false /\
  activeTool (engine w') = tool /\
  nothingScheduled w w' /\
  nothingWritten w w'.
Proof.
  intros Hs He. cbv zeta.
  assert (forall w1 : World,
            isDrawing (engine w1) = false -> isPanning (engine w1) = false ->
            activeTool (engine w1) = tool ->
            let w' := run (moves evs) w1 in
            shapes (engine w') = shapes (engine w1) /\
            panX (engine w') = panX (engine w1) /\
            panY (engine w') = panY (engine w1) /\
            scale (engine w') = scale (engine w1) /\
            selectionController (engine w') = selectionController (engine w1) /\
            saveTimeoutId (engine w') = saveTimeoutId (engine w1) /\
            isDrawing (engine w') = false /\ isPanning (engine w') = false /\
            activeTool (engine w') = tool /\
            host w' = host w1 /\ awaitingSaves w' = awaitingSaves w1) as Hmoves.
  { induction evs as [|ev evs IH]; intros w1 Hd Hp Ht.
    - cbn. auto 12.
    - cbn [moves map run fold_left step].
      rewrite (handleMouseMove_idle ev w1 Hd Hp) by (rewrite Ht; assumption).
      set (w2 := upd_engine _ w1).
      destruct (IH w2 Hd Hp Ht) as (H1 & H2 & H3 & H4 & H5 & H6 & H7 & H8 & H9 & H10 & H11).
      unfold moves, run in *.
      rewrite H1, H2, H3, H4, H5, H6, H7, H8, H9, H10, H11. subst w2. cbn. auto 12. }
  destruct (Hmoves (setTool tool w)) as (H1 & H2 & H3 & H4 & H5 & H6 & H7 & H8 & H9 & H10 & H11);
    [reflexivity..|].
  unfold nothingScheduled, nothingWritten.
  rewrite H1, H2, H3, H4, H5, H6, H7, H8, H9, H10, H11. cbn. auto 12.
Qed.

(** *** Persistence over time *)

Lemma armed_after_save (w w' : World) :
  TimerInv w -> saveScheduled w w' -> clock (host w') = clock (host w) ->
  TimerInv w' /\ armed w' 500.
Proof.
  intros Hinv Hs Hc. destruct (inv_save _ _ Hs Hinv) as (Hinv' & Hp).
  split; [exact Hinv'|]. exists (nextTimerId (host w)). rewrite Hp, Hc. reflexivity.
Qed.

Lemma ticks_frame (k : nat) (w : World) :
  engine (ticks k w) = engine w /\
  localStorage (host (ticks k w)) = localStorage (host w) /\
  (TimerInv w -> TimerInv (ticks k w)).
Proof.
  revert w. induction k as [|k IH]; intros w; [cbn; auto|].
  cbn [ticks]. destruct (IH (tick w)) as (He & Hl & Hinv).
  destruct (tick_spec w) as (He' & _ & _ & _ & Hl' & _).
  rewrite He, Hl, He', Hl'. split; [reflexivity|]. split; [reflexivity|].
  intros H. apply Hinv, inv_tick, H.
Qed.

(** A pending write fires when its time has come, not before, and leaves
    none pending. *)
Lemma armed_fires (d : nat) (w : World) :
  armed w (S d) ->
  (forall k, (k <= d)%nat -> remoteSaves (host (ticks k w)) = remoteSaves (host w)) /\
  remoteSaves (host (ticks (S d) w)) = remoteSaves (host w) ++ writes 1 (engine w) /\
  persistTimers (ticks (S d) w) = [].
Proof.
  intros Ha.
  assert (forall k, (k <= d)%nat ->
            armed (ticks k w) (S (d - k)) /\
            remoteSaves (host (ticks k w)) = remoteSaves (host w) /\
            engine (ticks k w) = engine w) as Hwait.
  { intros k Hk. apply ticks_armed.
    replace (k + S (d - k))%nat with (S d) by lia. exact Ha. }
  split; [intros k Hk; apply (Hwait k Hk)|].
  destruct (Hwait d) as (Ha' & Hr & He); [lia|].
  replace (S (d - d)) with 1%nat in Ha' by lia.
  destruct (tick_armed_fire _ Ha') as (Hp & Hr' & _).
  replace (S d) with (d + 1)%nat by lia. rewrite ticks_add. cbn [ticks].
  split; [|exact Hp]. rewrite Hr', Hr, He. reflexivity.
Qed.

Lemma addShapes_effect (a : list Shape) (w : World) :
  shapes (engine (addShapes a w)) = shapes (engine w) ++ a /\
  nothingWritten w (addShapes a w).
Proof.
  unfold addShapes, save, nothingWritten.
  destruct (saveTimeoutId (engine (render (upd_engine _ w)))); cbn; auto.
Qed.

Lemma addShapes_clock (a : list Shape) (w : World) :
  clock (host (addShapes a w)) = clock (host w).
Proof.
  unfold addShapes, save.
  destruct (saveTimeoutId (engine (render (upd_engine _ w)))); reflexivity.
Qed.

(** X7. Two calls of [addShapes] in a row leave the scene that one call
    with the concatenated shapes leaves, the existing shapes first and in
    order; nothing is written yet, and one write, not two, is pending, due
    in 500 ms. *)
Theorem addShapes_compose (a b : list Shape) (w : World) :
  TimerInv w ->
  let w' := addShapes b (addShapes a w) in
  shapes (engine w') = shapes (engine w) ++ a ++ b /\
  shapes (engine w') = shapes (engine (addShapes (a ++ b) w)) /\
  nothingWritten w w' /\
  TimerInv w' /\ armed w' 500.
Proof.
  intros Hinv w'.
  destruct (armed_after_save w (addShapes a w) Hinv
              (proj1 (addShapes_clear_persist a w)) (addShapes_clock a w)) as (Hinv1 & _).
  destruct (armed_after_save (addShapes a w) w' Hinv1
              (proj1 (addShapes_clear_persist b (addShapes a w)))
              (addShapes_clock b (addShapes a w))) as (Hinv2 & Ha2).
  destruct (addShapes_effect a w) as (Hs1 & Hw1).
  destruct (addShapes_effect b (addShapes a w)) as (Hs2 & Hw2). fold w' in Hs2, Hw2.
  destruct (addShapes_effect (a ++ b) w) as (Hs3 & _).
  split; [|split; [|split; [|split; assumption]]].
  - rewrite Hs2, Hs1. apply eq_sym, app_assoc.
  - rewrite Hs2, Hs1, Hs3. apply eq_sym, app_assoc.
  - unfold nothingWritten in *. destruct Hw1 as (? & ? & ?), Hw2 as (? & ? & ?).
    repeat split; congruence.
Qed.

(** Every step leaves the engine's identifier and mode alone. *)
Lemma step_identity (ev : Event) (w : World) :
  canvasId (engine (step ev w)) = canvasId (engine w) /\
  readOnly (engine (step ev w)) = readOnly (engine w).
Proof.
  assert (ev = Tick \/ ev <> Tick) as [-> | Hev]
    by (destruct ev; first [left; reflexivity | right; discriminate]).
  - cbn [step]. rewrite (proj1 (tick_spec w)). auto.
  - destruct (step_frame ev w Hev) as (? & ? & _). auto.
Qed.

(** X8. Debouncing drops no write: two mutations that lie 500 ms or more
    apart are each written, in order, each with the scene as it was 500 ms
    after it. *)
Theorem spaced_mutations_each_written (a b : list Shape) (g1 g2 : nat) (w : World) :
  TimerInv w ->
  persistBlocked (engine w) = false ->
  let w1 := ticks (500 + g1) (addShapes a w) in
  let w2 := ticks (500 + g2) (addShapes b w1) in
  remoteSaves (host w2) =
    remoteSaves (host w) ++
    [(canvasId (engine w), shapes (engine w) ++ a);
     (canvasId (engine w), shapes (engine w) ++ a ++ b)].
Proof.
  intros Hinv Hb w1 w2.
  assert (forall (c : list Shape) (g : nat) (v : World),
            TimerInv v -> persistBlocked (engine v) = false ->
            let v' := ticks (500 + g) (addShapes c v) in
            TimerInv v' /\ engine v' = engine (addShapes c v) /\
            remoteSaves (host v') =
              remoteSaves (host v) ++ [(canvasId (engine v), shapes (engine v) ++ c)]) as Hone.
  { intros c g v Hv Hbv v'.
    destruct (armed_after_save v (addShapes c v) Hv
                (proj1 (addShapes_clear_persist c v)) (addShapes_clock c v)) as (Hv1 & Ha1).
    destruct (armed_fires 499 _ Ha1) as (_ & Hr & Hp).
    destruct (ticks_frame (500 + g) (addShapes c v)) as (He & _ & Hi).
    split; [apply Hi, Hv1|]. split; [exact He|].
    destruct (addShapes_effect c v) as (Hsc & (Hrc & _)).
    destruct (step_identity (AddShapes c) v) as (Hidc & Hroc). cbn [step] in Hidc, Hroc.
    subst v'. rewrite ticks_add, (ticks_idle g _ Hp), Hr.
    unfold writes, persistBlocked in *. rewrite Hidc, Hroc, Hbv, Hrc, Hsc.
    reflexivity. }
  destruct (Hone a g1 w Hinv Hb) as (Hinv1 & He1 & Hr1). fold w1 in Hinv1, He1, Hr1.
  assert (persistBlocked (engine w1) = false) as Hb1 by (rewrite He1; exact Hb).
  destruct (Hone b g2 w1 Hinv1 Hb1) as (_ & _ & Hr2). fold w2 in Hr2.
  rewrite Hr2, Hr1, He1, <- app_assoc. cbn. rewrite <- app_assoc. reflexivity.
Qed.

(** X9. In every state an engine can reach from its construction in a
    browser without pending persistence timers, at most one debounced write
    is pending. *)
Theorem at_most_one_pending_write (id : option string) (ro : bool) (h : Host)
    (evs : list Event) :
  HostQuiet h ->
  (length (persistTimers (run evs (newEngine id ro h))) <= 1)%nat.
Proof.
  intros Hq.
  assert (forall (w : World) ev,
            TimerInv w /\ (length (persistTimers w) <= 1)%nat ->
            TimerInv (step ev w) /\ (length (persistTimers (step ev w)) <= 1)%nat) as Hstep.
  { intros w ev (Hinv & Hlen). split; [apply inv_step, Hinv|].
    assert (ev = Tick \/ ev <> Tick) as [-> | Hev]
      by (destruct ev; first [left; reflexivity | right; discriminate]).
    - cbn [step]. rewrite persistTimers_tick.
      etransitivity; [apply List.filter_length_le | exact Hlen].
    - destruct (step_schedule ev w Hev) as [H | [H | H]].
      + rewrite (proj2 (inv_nothing _ _ H Hinv)). exact Hlen.
      + rewrite (proj2 (inv_save _ _ H Hinv)). cbn. lia.
      + rewrite (proj2 (inv_focus _ _ H Hinv)). exact Hlen. }
  assert (TimerInv (newEngine id ro h) /\
          (length (persistTimers (newEngine id ro h)) <= 1)%nat) as H0.
  { split; [apply inv_new, Hq|].
    assert (timers (host (newEngine id ro h)) = timers h) as Ht
      by (unfold newEngine, init; crunch).
    unfold persistTimers. rewrite Ht, filter_none; [cbn; lia|].
    intros t Hin. apply Hq, Hin. }
  revert H0. generalize (newEngine id ro h). intros w.
  revert w. induction evs as [|ev evs IH]; intros w H0; [apply H0|].
  cbn [run fold_left]. apply IH, Hstep, H0.
Qed.






(** *** Coordinates *)

(** X12. The world point [getWorldPos] returns for a pointer is drawn by
    the render transform exactly at the pointer: at the buffer pixel that is
    the device pixel ratio times the pointer's CSS offset in the canvas. *)
Theorem pointer_pixel_round_trip (ev : MouseEvent) (w : World) :
  scale (engine w) <> 0 ->
  let dpr := currentDpr (host w) in
  applyTransform (renderTransform dpr (engine w)) (getWorldPos ev w) =
  (dpr * fst (cssPos ev w), dpr * snd (cssPos ev w)).
Proof.
  intros Hs dpr. unfold applyTransform, renderTransform, getWorldPos, cssPos.
  cbn [fst snd tr_a tr_b tr_c tr_d tr_e tr_f]. f_equal; field; exact Hs.
Qed.

(** X13. [setScale] zooms about the pan origin: changing the zoom from [a]
    to [b] multiplies the world coordinates read at any pointer position by
    [a / b], and changes neither the pan nor the scene. *)
Theorem zoom_rescales_world (b : Qc) (ev : MouseEvent) (w : World) :
  scale (engine w) <> 0 ->
  b <> 0 ->
  let a := scale (engine w) in
  getWorldPos ev (setScale b w) =
    (a / b * fst (getWorldPos ev w), a / b * snd (getWorldPos ev w)) /\
  (panX (engine (setScale b w)), panY (engine (setScale b w))) =
    (panX (engine w), panY (engine w)) /\
  shapes (engine (setScale b w)) = shapes (engine w).
Proof.
  intros Ha Hb a. split; [|split; reflexivity].
  unfold getWorldPos, setScale. cbn. subst a. f_equal; field; auto.
Qed.

(** *** Selecting and erasing *)

Lemma find_split {A} (f : A -> bool) (l : list A) (s : A) :
  List.find f l = Some s ->
  exists l1 l2, l = l1 ++ s :: l2 /\ f s = true /\ forall t, In t l1 -> f t = false.
Proof.
  induction l as [|a l IH]; cbn; [discriminate|].
  destruct (f a) eqn:Ha.
  - intros [= ->]. exists [], l. cbn. tauto.
  - intros Hf. destruct (IH Hf) as (l1 & l2 & -> & Hs & Hl1).
    exists (a :: l1), l2. cbn. split; [reflexivity|]. split; [exact Hs|].
    intros t [<- | Hin]; auto.
Qed.

(** [handleMouseDown] with the selection tool. *)
Lemma handleMouseDown_selectAt (ev : MouseEvent) (uuid : string) (w : World) :
  activeTool (engine w) = selection ->
  handleMouseDown ev uuid w =
  selectAt (fst (downPos ev w)) (snd (downPos ev w))
    (upd_engine (fun e =>
       set_startY (snd (downPos ev w)) (set_startX (fst (downPos ev w))
         (set_lastMouseY (clientY ev) (set_lastMouseX (clientX ev)
           (set_cachedCanvasRect (Some (canvasRect (host w))) e))))) w).
Proof.
  intros Ht. unfold handleMouseDown.
  cbn [upd_engine engine host activeTool set_lastMouseX set_lastMouseY set_cachedCanvasRect
       set_startX set_startY].
  rewrite Ht. reflexivity.
Qed.

(** [selectAt] when nothing is selected. *)
Lemma selectAt_none (x y : Qc) (w : World) :
  getSelectedShape (selectionController (engine w)) = None ->
  selectAt x y w =
  render (upd_engine (set_selectionController
    match topmost (isPointInShape (selectionController (engine w)) x y) (shapes (engine w)) with
    | Some s => startDragging x y (setSelectedShape (Some s) (selectionController (engine w)))
    | None => setSelectedShape None (selectionController (engine w))
    end) w).
Proof.
  intros Hsel. unfold selectAt, topmost. rewrite Hsel.
  destruct (List.find _ _); reflexivity.
Qed.

Lemma selectAt_effect (x y : Qc) (w : World) :
  getSelectedShape (selectionController (engine w)) = None ->
  selectionController (engine (selectAt x y w)) =
    match topmost (isPointInShape (selectionController (engine w)) x y) (shapes (engine w)) with
    | Some s => startDragging x y (setSelectedShape (Some s) (selectionController (engine w)))
    | None => setSelectedShape None (selectionController (engine w))
    end /\
  shapes (engine (selectAt x y w)) = shapes (engine w) /\
  exists f, frames (host (selectAt x y w)) = frames (host w) ++ [f].
Proof.
  intros Hsel. rewrite (selectAt_none x y w Hsel). cbn. eauto.
Qed.

Lemma handleMouseDown_select_effect (ev : MouseEvent) (uuid : string) (w : World) :
  activeTool (engine w) = selection ->
  getSelectedShape (selectionController (engine w)) = None ->
  selectionController (engine (handleMouseDown ev uuid w)) =
    match topmost (isPointInShape (selectionController (engine w))
                     (fst (downPos ev w)) (snd (downPos ev w))) (shapes (engine w)) with
    | Some s => startDragging (fst (downPos ev w)) (snd (downPos ev w))
                  (setSelectedShape (Some s) (selectionController (engine w)))
    | None => setSelectedShape None (selectionController (engine w))
    end /\
  shapes (engine (handleMouseDown ev uuid w)) = shapes (engine w) /\
  exists f, frames (host (handleMouseDown ev uuid w)) = frames (host w) ++ [f].
Proof.
  intros Ht Hsel. rewrite (handleMouseDown_selectAt ev uuid w Ht).
  set (x := fst (downPos ev w)). set (y := snd (downPos ev w)).
  set (w1 := upd_engine _ w).
  assert (selectionController (engine w1) = selectionController (engine w)) as Hc
    by reflexivity.
  assert (shapes (engine w1) = shapes (engine w)) as Hs by reflexivity.
  assert (frames (host w1) = frames (host w)) as Hf by reflexivity.
  rewrite <- Hc in Hsel. rewrite <- Hc, <- Hs, <- Hf.
  exact (selectAt_effect x y w1 Hsel).
Qed.

(** X14. With the selection tool and nothing selected, a pointer-down
    tells the controller to select the topmost shape under the pointer, the
    one drawn last among those that contain it, and to start dragging it; if
    no shape contains the pointer the selection is cleared. The scene is not
    touched and a frame is drawn. *)
Theorem selection_picks_topmost (ev : MouseEvent) (uuid : string) (w : World) :
  activeTool (engine w) = selection ->
  getSelectedShape (selectionController (engine w)) = None ->
  let sel := selectionController (engine w) in
  let x := fst (downPos ev w) in
  let y := snd (downPos ev w) in
  let w' := handleMouseDown ev uuid w in
  selectionController (engine w') =
    match topmost (isPointInShape sel x y) (shapes (engine w)) with
    | Some s => startDragging x y (setSelectedShape (Some s) sel)
    | None => setSelectedShape None sel
    end /\
  (forall s, topmost (isPointInShape sel x y) (shapes (engine w)) = Some s ->
     exists below above,
       shapes (engine w) = below ++ s :: above /\
       isPointInShape sel x y s = true /\
       forall t, In t above -> isPointInShape sel x y t = false) /\
  (topmost (isPointInShape sel x y) (shapes (engine w)) = None ->
     forall t, In t (shapes (engine w)) -> isPointInShape sel x y t = false) /\
  shapes (engine w') = shapes (engine w) /\
  exists f, frames (host w') = frames (host w) ++ [f].
Proof.
  intros Ht Hsel. cbv zeta.
  destruct (handleMouseDown_select_effect ev uuid w Ht Hsel) as (Hc & Hs & Hf).
  split; [exact Hc|]. split; [|split; [|split; [exact Hs | exact Hf]]].
  - intros s Hfind.
    destruct (find_split _ _ _ Hfind) as (l1 & l2 & Hrev & Hhit & Hl1).
    exists (rev l2), (rev l1). split; [|split; [exact Hhit|]].
    + rewrite <- (rev_involutive (shapes (engine w))), Hrev, rev_app_distr. cbn.
      rewrite <- app_assoc. reflexivity.
    + intros t Hin. apply Hl1. apply in_rev. exact Hin.
  - intros Hfind t Hin. apply (List.find_none _ _ Hfind).
    apply in_rev in Hin. exact Hin.
Qed.

Lemma filter_idem {A} (f : A -> bool) (l : list A) :
  List.filter f (List.filter f l) = List.filter f l.
Proof.
  induction l as [|a l IH]; cbn; [reflexivity|].
  destruct (f a) eqn:Ha; cbn; rewrite ?Ha, IH; reflexivity.
Qed.

(** What an eraser move does, whether it removes a shape or not. *)
Lemma eraser_move_effect (ev : MouseEvent) (w : World) :
  activeTool (engine w) = eraser ->
  buttons ev = 1%N ->
  let w' := handleMouseMove ev w in
  shapes (engine w') =
    eraseAt (fst (getWorldPos ev w)) (snd (getWorldPos ev w)) (engine w) /\
  selectionController (engine w') = selectionController (engine w) /\
  activeTool (engine w') = eraser /\
  (forall ev', getWorldPos ev' w' = getWorldPos ev' w).
Proof.
  intros Ht Hb w'. subst w'. rewrite (handleMouseMove_eraser ev w Ht Hb). cbv zeta.
  destruct (Nat.ltb _ _); unfold save;
    try destruct (saveTimeoutId _); cbn; auto.
Qed.

(** X15. Erasing twice at the same place is erasing once: a pointer move
    at the position of the eraser's pointer-down, the button held, removes
    nothing more and sets no timer. *)
Theorem eraser_idempotent (ev : MouseEvent) (uuid : string) (w : World) :
  activeTool (engine w) = eraser ->
  buttons ev = 1%N ->
  let w1 := handleMouseDown ev uuid w in
  let w2 := handleMouseMove ev w1 in
  shapes (engine w2) = shapes (engine w1) /\
  nothingScheduled w1 w2.
Proof.
  intros Ht Hb w1 w2.
  assert (activeTool (engine w1) = eraser /\
          getWorldPos ev w1 = downPos ev w /\
          selectionController (engine w1) = selectionController (engine w) /\
          shapes (engine w1) = eraseAt (fst (downPos ev w)) (snd (downPos ev w)) (engine w))
    as (Ht1 & Hp1 & Hc1 & Hs1).
  { subst w1. rewrite (handleMouseDown_eraser ev uuid w Ht).
    unfold save. destruct (saveTimeoutId _); cbn; auto. }
  assert (eraseAt (fst (getWorldPos ev w1)) (snd (getWorldPos ev w1)) (engine w1)
          = shapes (engine w1)) as Hsame.
  { unfold eraseAt at 1. rewrite Hp1, Hc1, Hs1. unfold eraseAt. apply filter_idem. }
  subst w2. rewrite (handleMouseMove_eraser ev w1 Ht1 Hb). cbv zeta.
  rewrite Hsame, Nat.ltb_irrefl. unfold nothingScheduled. cbn. auto.
Qed.

(** X16. The order in which two places are erased does not matter for the
    scene that is left. *)
Theorem eraser_commutes (ev1 ev2 : MouseEvent) (w : World) :
  activeTool (engine w) = eraser ->
  buttons ev1 = 1%N ->
  buttons ev2 = 1%N ->
  shapes (engine (handleMouseMove ev2 (handleMouseMove ev1 w))) =
  shapes (engine (handleMouseMove ev1 (handleMouseMove ev2 w))).
Proof.
  intros Ht Hb1 Hb2.
  destruct (eraser_move_effect ev1 w Ht Hb1) as (Hs1 & Hc1 & Ht1 & Hp1).
  destruct (eraser_move_effect ev2 w Ht Hb2) as (Hs2 & Hc2 & Ht2 & Hp2).
  destruct (eraser_move_effect ev2 _ Ht1 Hb2) as (Hs12 & _).
  destruct (eraser_move_effect ev1 _ Ht2 Hb1) as (Hs21 & _).
  rewrite Hs12, Hs21. unfold eraseAt. rewrite Hp1, Hp2, Hc1, Hc2, Hs1, Hs2.
  unfold eraseAt. apply filter_swap.
Qed.

(** *** Construction *)


(** *** Sizing the canvas *)





(** *** The cached rectangle *)






(** *** A fetch that settles late *)

(** X22. A remote scene that arrives while a write is pending replaces
    whatever was drawn before it arrived and leaves the timer alone: when
    the timer fires, the scene written, if the guard lets a write through,
    is the fetched one. *)
Theorem late_fetch_is_what_gets_written (s : Shape) (l : list Shape) (d : nat) (w : World) :
  awaitingFetch w = true ->
  armed w (S d) ->
  let w' := fetchSettled (FetchResolved (Some (s :: l))) w in
  shapes (engine w') = s :: l /\
  nothingScheduled w w' /\
  remoteSaves (host (ticks (S d) w')) =
    remoteSaves (host w) ++
    (if persistBlocked (engine w) then [] else [(canvasId (engine w), s :: l)]%list).
Proof.
  intros Hf Ha. cbv zeta. unfold fetchSettled. rewrite Hf.
  set (w' := render _).
  assert (armed w' (S d)) as Ha' by exact Ha.
  destruct (armed_fires d w' Ha') as (_ & Hr & _).
  split; [reflexivity|]. split; [unfold nothingScheduled; auto|].
  rewrite Hr. unfold writes, persistBlocked. reflexivity.
Qed.

End MoreProperties.

Section TextEntryProperties.
Context {Sel Bounds Handle : Type}.
Context {SC : SelectionController Sel Bounds Handle} {EX : Externals}.
Variable trim : string -> string.

Local Abbreviation World := (World Sel).

Lemma delete_last {A} (l : list A) (x : A) : delete (length l) (l ++ [x]) = l.
Proof. induction l as [|a l IH]; cbn; [reflexivity|]. f_equal. exact IH. Qed.

(** [handleMouseDown] with the text tool, the editor container present. *)
Lemma handleMouseDown_text (ev : MouseEvent) (uuid : string) (w : World) :
  activeTool (engine w) = text ->
  textEditorContainer (host w) = true ->
  handleMouseDown ev uuid w =
  upd_host (fun h =>
    snd (setTimeout FocusTextarea 10
      (set_textareas (textareas h ++
         [{| ta_left := clientX ev; ta_top := clientY ev;
             ta_color := strokeFill (engine w);
             ta_worldX := fst (downPos ev w); ta_worldY := snd (downPos ev w) |}]) h)))
    (upd_engine (fun e =>
       set_startY (snd (downPos ev w)) (set_startX (fst (downPos ev w))
         (set_lastMouseY (clientY ev) (set_lastMouseX (clientX ev)
           (set_cachedCanvasRect (Some (canvasRect (host w))) e))))) w).
Proof.
  intros Ht Hc. unfold handleMouseDown.
  cbn [upd_engine engine host activeTool set_lastMouseX set_lastMouseY set_cachedCanvasRect
       set_startX set_startY].
  rewrite Ht. cbn [same_tool]. unfold handleTextEntry.
  cbn [upd_engine engine host]. rewrite Hc. reflexivity.
Qed.

(** X18. Text entry. A pointer-down with the text tool opens a textarea at
    the pointer, without touching the scene or scheduling a write. When the
    textarea loses focus it is removed in every case; if its text is blank
    after trimming, the scene and the timers stay as they are; otherwise one
    text shape is appended, anchored at the world position of the
    pointer-down and holding the text as typed, untrimmed, and a write is
    scheduled. *)
Theorem text_entry (ev : MouseEvent) (uuid0 : string) (w : World) :
  activeTool (engine w) = text ->
  textEditorContainer (host w) = true ->
  let w1 := handleMouseDown ev uuid0 w in
  let i := length (textareas (host w)) in
  shapes (engine w1) = shapes (engine w) /\
  length (textareas (host w1)) = S i /\
  focusScheduled w w1 /\
  forall value uuid,
    let w2 := handleBlur trim i value uuid w1 in
    textareas (host w2) = textareas (host w) /\
    (trim value = EmptyString ->
       shapes (engine w2) = shapes (engine w) /\ nothingScheduled w1 w2) /\
    (trim value <> EmptyString ->
       exists s,
         shapes (engine w2) = shapes (engine w) ++ [s] /\
         shape_id s = uuid /\
         (shape_x s, shape_y s) = downPos ev w /\
         shape_strokeFill s = strokeFill (engine w) /\
         shape_kind s =
           Text 0 0 value (fontSize (engine w)) (fontFamily (engine w)) "left" /\
         saveScheduled w1 w2).
Proof.
  intros Ht Hc w1 i. subst w1. rewrite (handleMouseDown_text ev uuid0 w Ht Hc).
  set (ta := {| ta_left := clientX ev |}).
  split; [reflexivity|]. split; [cbn; rewrite length_app; cbn; lia|].
  split; [unfold focusScheduled; cbn; auto|].
  intros value uuid. cbv zeta. unfold handleBlur.
  cbn [host upd_host upd_engine setTimeout snd textareas set_textareas set_timers
       set_nextTimerId].
  subst i. rewrite (list_lookup_middle _ [] ta) by reflexivity.
  case_bool_decide as Hblank.
  - cbn. rewrite delete_last. split; [reflexivity|]. split; [|congruence].
    intros _. unfold nothingScheduled. cbn. auto.
  - unfold save. cbn.
    destruct (saveTimeoutId (engine w)) eqn:Hid; cbn; rewrite ?delete_last;
      (split; [reflexivity|]); (split; [congruence|]); intros _;
      eexists; (split; [reflexivity|]); cbn;
      unfold saveScheduled, rearmed; cbn; rewrite ?Hid; auto 10.
Qed.

(** X19. Without the editor container in the page a pointer-down with the
    text tool opens nothing: the scene, the textareas and the timers stay as
    they are, and nothing the pointer does afterwards can add a text. *)
Theorem text_entry_needs_container (ev : MouseEvent) (uuid : string) (w : World) :
  activeTool (engine w) = text ->
  textEditorContainer (host w) = false ->
  let w1 := handleMouseDown ev uuid w in
  shapes (engine w1) = shapes (engine w) /\
  host w1 = host w /\
  forall i value uuid', handleBlur trim (length (textareas (host w)) + i) value uuid' w1 = w1.
Proof.
  intros Ht Hc w1.
  assert (w1 = upd_engine (fun e =>
       set_startY (snd (downPos ev w)) (set_startX (fst (downPos ev w))
         (set_lastMouseY (clientY ev) (set_lastMouseX (clientX ev)
           (set_cachedCanvasRect (Some (canvasRect (host w))) e))))) w) as ->.
  { subst w1. unfold handleMouseDown.
    cbn [upd_engine engine host activeTool set_lastMouseX set_lastMouseY set_cachedCanvasRect
         set_startX set_startY].
    rewrite Ht. cbn [same_tool]. unfold handleTextEntry.
    cbn [upd_engine engine host]. rewrite Hc. reflexivity. }
  split; [reflexivity|]. split; [reflexivity|].
  intros i value uuid'. unfold handleBlur. cbn [host upd_engine].
  rewrite lookup_ge_None_2 by lia. reflexivity.
Qed.

End TextEntryProperties.

(* ================================================================== *)
(** ** More examples *)

Module MoreExamples.
Import Reference Scenarios MoreScenarios.
Local Close Scope Qc_scope.

(** X1 on an empty canvas with the rectangle tool: a click at (10, 10). *)
Lemma click_leaves_zero_extent_shape_witness :
  notDrawingTool (activeTool (engine ready)) = false /\
  isPanning (engine ready) = false /\
  exists s,
    shapes (engine (handleMouseUp (handleMouseDown (mouse 10 10 1) "u" ready))) =
      shapes (engine ready) ++ [s] /\
    shape_id s = "u" /\ zeroExtent s.
Proof.
  assert (notDrawingTool (activeTool (engine ready)) = false) as Ht
    by (vm_compute; reflexivity).
  assert (isPanning (engine ready) = false) as Hp by (vm_compute; reflexivity).
  split; [exact Ht|]. split; [exact Hp|].
  destruct (click_leaves_zero_extent_shape (mouse 10 10 1) "u" ready Ht Hp)
    as (s & _ & Hs & Hid & _ & Hz & _).
  exists s. split; [exact Hs|]. split; [exact Hid | exact Hz].
Defined.

(** X2 on the ellipse begun at (10, 10): the pointer wanders to (20, 20)
    and then to (110, 60). *)
Lemma drag_follows_pointer_witness :
  Drawing sketch [] oval /\
  isFreeDraw oval = false /\
  shapes (engine (run (moves ([mouse 20 20 1] ++ [mouse 110 60 1])) sketch)) =
  shapes (engine (handleMouseMove (mouse 110 60 1) sketch)).
Proof.
  assert (Drawing sketch [] oval) as Hd
    by (split; [|split]; vm_compute; reflexivity).
  assert (isFreeDraw oval = false) as Hf by (vm_compute; reflexivity).
  split; [exact Hd|]. split; [exact Hf|].
  exact (proj1 (drag_follows_pointer sketch [] oval [mouse 20 20 1] (mouse 110 60 1) Hd Hf)).
Defined.

(** X3 on the stroke begun at (10, 10), continued through (12, 11) and
    (15, 13). *)
Lemma free_draw_accumulates_witness :
  Drawing stroke [] ink /\
  isFreeDraw ink = true /\
  exists s',
    shapes (engine (run (moves [mouse 12 11 1; mouse 15 13 1]) stroke)) = [] ++ [s'] /\
    pointsOf s' =
      pointsOf ink ++
      map (fun ev => pointOf (getWorldPos ev stroke)) [mouse 12 11 1; mouse 15 13 1].
Proof.
  assert (Drawing stroke [] ink) as Hd
    by (split; [|split]; vm_compute; reflexivity).
  assert (isFreeDraw ink = true) as Hf by (vm_compute; reflexivity).
  split; [exact Hd|]. split; [exact Hf|].
  destruct (free_draw_accumulates stroke [] ink [mouse 12 11 1; mouse 15 13 1] Hd Hf)
    as (s' & Hs & Hp & _).
  exists s'. split; [exact Hs | exact Hp].
Defined.

(** X4 with the grab tool: the pointer goes down at (100, 100), wanders
    to (90, 140) and is released at (130, 115). *)
Lemma pan_session_witness :
  activeTool (engine hand) = grab /\
  let evs := [mouse 90 140 1; mouse 130 115 1] in
  let w' := run (MouseDown (mouse 100 100 1) "u" :: moves evs ++ [MouseUp]) hand in
  panX (engine w') =
    (panX (engine hand) +
     (clientX (List.last evs (mouse 100 100 1)) - clientX (mouse 100 100 1)))%Qc.
Proof.
  assert (activeTool (engine hand) = grab) as Ht by (vm_compute; reflexivity).
  split; [exact Ht|].
  exact (proj1 (pan_session (mouse 100 100 1) "u" [mouse 90 140 1; mouse 130 115 1]
                  hand Ht)).
Defined.

(** X5 in the pan session begun at (100, 100): the pointer moves to
    (130, 115). *)
Lemma grabbed_point_stays_under_pointer_witness :
  Panning grabbing (mouse 100 100 1) /\
  getWorldPos (mouse 130 115 1) (handleMouseMove (mouse 130 115 1) grabbing) =
  getWorldPos (mouse 100 100 1) grabbing.
Proof.
  assert (Panning grabbing (mouse 100 100 1)) as Hp
    by (split; [|split; [|split]]; vm_compute; reflexivity).
  split; [exact Hp|].
  exact (grabbed_point_stays_under_pointer (mouse 100 100 1) (mouse 130 115 1) grabbing Hp).
Defined.

(** X6 while a rectangle is being drawn: the ellipse tool is chosen and
    the pointer moves on, the button still down. *)
Lemma setTool_cancels_witness :
  same_tool ellipse selection = false /\
  same_tool ellipse eraser = false /\
  shapes (engine (run (moves [mouse 120 70 1; mouse 200 90 1]) (setTool ellipse drawing))) =
  shapes (engine drawing).
Proof.
  split; [reflexivity|]. split; [reflexivity|].
  exact (proj1 (setTool_cancels ellipse [mouse 120 70 1; mouse 200 90 1] drawing
                  eq_refl eq_refl)).
Defined.

(** The idle engine keeps the timer invariant. *)
Lemma idle_inv : TimerInv idle.
Proof. apply inv_new, Examples.quiet_browser. Qed.

(** X7 on the engine that found [r1]: [r2] and [r3] are added one after
    the other. *)
Lemma addShapes_compose_witness :
  TimerInv idle /\
  shapes (engine (addShapes [r3] (addShapes [r2] idle))) =
    shapes (engine idle) ++ [r2] ++ [r3] /\
  armed (addShapes [r3] (addShapes [r2] idle)) 500.
Proof.
  split; [exact idle_inv|].
  destruct (addShapes_compose [r2] [r3] idle idle_inv) as (Hs & _ & _ & _ & Ha).
  split; [exact Hs | exact Ha].
Defined.

(** X8 on the same engine: [r2] is added, and [r3] 520 ms later. *)
Lemma spaced_mutations_each_written_witness :
  TimerInv idle /\
  persistBlocked (engine idle) = false /\
  remoteSaves (host (ticks (500 + 3) (addShapes [r3] (ticks (500 + 20) (addShapes [r2] idle))))) =
    remoteSaves (host idle) ++
    [(canvasId (engine idle), shapes (engine idle) ++ [r2]);
     (canvasId (engine idle), shapes (engine idle) ++ [r2] ++ [r3])].
Proof.
  assert (persistBlocked (engine idle) = false) as Hb by (vm_compute; reflexivity).
  split; [exact idle_inv|]. split; [exact Hb|].
  exact (spaced_mutations_each_written [r2] [r3] 20 3 idle idle_inv Hb).
Defined.

(** X9 for a burst of edits on a fresh engine. *)
Lemma at_most_one_pending_write_witness :
  HostQuiet (browser ∅) /\
  (length (persistTimers
     (run [AddShapes [r1]; Tick; Clear; AddShapes [r2]; MouseUp]
        (newEngine (Some "c1") false (browser ∅)))) <= 1)%nat.
Proof.
  split; [exact (Examples.quiet_browser ∅)|].
  exact (at_most_one_pending_write (Some "c1") false (browser ∅)
           [AddShapes [r1]; Tick; Clear; AddShapes [r2]; MouseUp]
           (Examples.quiet_browser ∅)).
Defined.


(** X12 at zoom 2, pan (30, 15) and device pixel ratio 2, the pointer at
    (118, 51). *)
Lemma pointer_pixel_round_trip_witness :
  scale (engine zoomed) <> 0%Qc /\
  applyTransform (renderTransform (currentDpr (host zoomed)) (engine zoomed))
    (getWorldPos (mouse 118 51 1) zoomed) =
  ((currentDpr (host zoomed) * fst (cssPos (mouse 118 51 1) zoomed))%Qc,
   (currentDpr (host zoomed) * snd (cssPos (mouse 118 51 1) zoomed))%Qc).
Proof.
  assert (scale (engine zoomed) <> 0%Qc) as Hs by (vm_compute; discriminate).
  split; [exact Hs|].
  exact (pointer_pixel_round_trip (mouse 118 51 1) zoomed Hs).
Defined.

(** X13 from zoom 2 to zoom 4. *)
Lemma zoom_rescales_world_witness :
  scale (engine zoomed) <> 0%Qc /\
  ofZ 4 <> 0%Qc /\
  getWorldPos (mouse 118 51 1) (setScale (ofZ 4) zoomed) =
    ((scale (engine zoomed) / ofZ 4 * fst (getWorldPos (mouse 118 51 1) zoomed))%Qc,
     (scale (engine zoomed) / ofZ 4 * snd (getWorldPos (mouse 118 51 1) zoomed))%Qc).
Proof.
  assert (scale (engine zoomed) <> 0%Qc) as Hs by (vm_compute; discriminate).
  assert (ofZ 4 <> 0%Qc) as Hb by (vm_compute; discriminate).
  split; [exact Hs|]. split; [exact Hb|].
  exact (proj1 (zoom_rescales_world (ofZ 4) (mouse 118 51 1) zoomed Hs Hb)).
Defined.

(** X14 on two overlapping rectangles, pressed at (60, 30), which lies in
    both: the one drawn last is picked. *)
Lemma selection_picks_topmost_witness :
  activeTool (engine stacked) = selection /\
  getSelectedShape (selectionController (engine stacked)) = None /\
  topmost (isPointInShape (selectionController (engine stacked))
             (fst (downPos (mouse 60 30 1) stacked)) (snd (downPos (mouse 60 30 1) stacked)))
    (shapes (engine stacked)) = Some r4 /\
  exists below above,
    shapes (engine stacked) = below ++ r4 :: above /\
    forall t, In t above ->
      isPointInShape (selectionController (engine stacked))
        (fst (downPos (mouse 60 30 1) stacked)) (snd (downPos (mouse 60 30 1) stacked)) t
      = false.
Proof.
  assert (activeTool (engine stacked) = selection) as Ht by (vm_compute; reflexivity).
  assert (getSelectedShape (selectionController (engine stacked)) = None) as Hn
    by (vm_compute; reflexivity).
  assert (topmost (isPointInShape (selectionController (engine stacked))
             (fst (downPos (mouse 60 30 1) stacked)) (snd (downPos (mouse 60 30 1) stacked)))
            (shapes (engine stacked)) = Some r4) as Htop
    by (vm_compute; reflexivity).
  split; [exact Ht|]. split; [exact Hn|]. split; [exact Htop|].
  destruct (selection_picks_topmost (mouse 60 30 1) "u" stacked Ht Hn)
    as (_ & Hfound & _).
  destruct (Hfound r4 Htop) as (below & above & Hs & _ & Habove).
  exists below, above. split; [exact Hs | exact Habove].
Defined.

(** X15 with the eraser on three shapes, pressed on [r1] at (50, 30). *)
Lemma eraser_idempotent_witness :
  activeTool (engine erasing) = eraser /\
  buttons (mouse 50 30 1) = 1%N /\
  shapes (engine (handleMouseMove (mouse 50 30 1)
                    (handleMouseDown (mouse 50 30 1) "u" erasing))) =
  shapes (engine (handleMouseDown (mouse 50 30 1) "u" erasing)).
Proof.
  assert (activeTool (engine erasing) = eraser) as Ht by (vm_compute; reflexivity).
  split; [exact Ht|]. split; [reflexivity|].
  exact (proj1 (eraser_idempotent (mouse 50 30 1) "u" erasing Ht eq_refl)).
Defined.

(** X16 with the eraser moved over [r1] and over [r2], in either order. *)
Lemma eraser_commutes_witness :
  activeTool (engine erasing) = eraser /\
  buttons (mouse 50 30 1) = 1%N /\
  buttons (mouse 210 20 1) = 1%N /\
  shapes (engine (handleMouseMove (mouse 210 20 1) (handleMouseMove (mouse 50 30 1) erasing))) =
  shapes (engine (handleMouseMove (mouse 50 30 1) (handleMouseMove (mouse 210 20 1) erasing))).
Proof.
  assert (activeTool (engine erasing) = eraser) as Ht by (vm_compute; reflexivity).
  split; [exact Ht|]. split; [reflexivity|]. split; [reflexivity|].
  exact (eraser_commutes (mouse 50 30 1) (mouse 210 20 1) erasing Ht eq_refl eq_refl).
Defined.

(** X18 with the text tool, clicked at (40, 50), where [" hi "] is typed:
    the text is kept with its blanks. *)
Lemma text_entry_witness :
  activeTool (engine writing) = text /\
  textEditorContainer (host writing) = true /\
  asciiTrim " hi " <> EmptyString /\
  exists s,
    shapes (engine (handleBlur asciiTrim (length (textareas (host writing))) " hi " "t1"
                      (handleMouseDown (mouse 40 50 1) "u" writing))) =
      shapes (engine writing) ++ [s] /\
    shape_id s = "t1" /\
    shape_kind s =
      Text 0 0 " hi " (fontSize (engine writing)) (fontFamily (engine writing)) "left".
Proof.
  assert (activeTool (engine writing) = text) as Ht by (vm_compute; reflexivity).
  assert (textEditorContainer (host writing) = true) as Hc by (vm_compute; reflexivity).
  assert (asciiTrim " hi " <> EmptyString) as Hv by (vm_compute; discriminate).
  split; [exact Ht|]. split; [exact Hc|]. split; [exact Hv|].
  destruct (text_entry asciiTrim (mouse 40 50 1) "u" writing Ht Hc) as (_ & _ & _ & Hblur).
  destruct (Hblur " hi " "t1") as (_ & _ & Hadd).
  destruct (Hadd Hv) as (s & Hs & Hid & _ & _ & Hk & _).
  exists s. split; [exact Hs|]. split; [exact Hid | exact Hk].
Defined.

(** X19 in a page without the editor container. *)
Lemma text_entry_needs_container_witness :
  activeTool (engine bare) = text /\
  textEditorContainer (host bare) = false /\
  host (handleMouseDown (mouse 40 50 1) "u" bare) = host bare.
Proof.
  assert (activeTool (engine bare) = text) as Ht by (vm_compute; reflexivity).
  assert (textEditorContainer (host bare) = false) as Hc by (vm_compute; reflexivity).
  split; [exact Ht|]. split; [exact Hc|].
  destruct (text_entry_needs_container asciiTrim (mouse 40 50 1) "u" bare Ht Hc)
    as (_ & Hh & _).
  exact Hh.
Defined.


(** X22 on an engine whose fetch settles with [r3] after [r2] was added:
    the write stores [r3] alone. *)
Lemma late_fetch_is_what_gets_written_witness :
  awaitingFetch hasty = true /\
  armed hasty (S 499) /\
  remoteSaves (host (ticks (S 499) (fetchSettled (FetchResolved (Some [r3])) hasty))) =
    remoteSaves (host hasty) ++
    (if persistBlocked (engine hasty) then [] else [(canvasId (engine hasty), [r3])]).
Proof.
  assert (awaitingFetch hasty = true) as Hf by (vm_compute; reflexivity).
  assert (armed hasty (S 499)) as Ha by (exists 1%positive; vm_compute; reflexivity).
  split; [exact Hf|]. split; [exact Ha|].
  destruct (late_fetch_is_what_gets_written r3 [] 499 hasty Hf Ha) as (_ & _ & Hr).
  exact Hr.
Defined.

End MoreExamples.
